(** * Heartbeat bracelet client: a shallow embedding of [static/js/app.js]

    The file follows the class [HeartbeatBraceletApp]:

    - JavaScript numbers that travel in mesh buffers are IEEE binary64
      values; they are modelled by the primitive type [float], for which
      [isNaN] and [isFinite] compute.
    - The preview waveform of [generateHeartbeatPreview] is arithmetic
      with [Math.sin] and [Math.PI]; it is modelled in exact real
      arithmetic ([R]), i.e. by the values the binary64 computation
      approximates.  Rounding is not part of that model; the amplitude
      as the program computes it, in binary64, is [Preview64], where
      [Math.sin] is a function of the engine.
    - The methods that touch the DOM, the console, the network and the
      Three.js scene are written in a state-and-exception monad over an
      explicit [World]. *)

From Stdlib Require Import ZArith List String Bool Reals Lra Lia Floats.
From stdpp Require Import base list pretty.
From stdpp Require Import gmap.

(** ** JavaScript numbers and arrays of numbers *)

Module JS.

(** [isNaN(x)] and [isFinite(x)] on a value that already is a number. *)
Definition isNaN (x : float) : bool := PrimFloat.is_nan x.
Definition isFinite (x : float) : bool := PrimFloat.is_finite x.

(** [a[i]] as seen by [isNaN] and [isFinite]: both apply [ToNumber] to
    their argument, and reading past the end of an array gives
    [undefined], whose [ToNumber] is [NaN]. *)
Definition at_index (a : list float) (i : nat) : float :=
  default nan (a !! i).

(** A length as a number. *)
Definition of_nat (n : nat) : float :=
  PrimFloat.of_uint63 (Uint63.of_Z (Z.of_nat n)).

(** Truthiness of a string that may be missing: [undefined] and the
    empty string are falsy. *)
Definition truthy (s : option string) : bool :=
  match s with
  | Some t => negb (String.eqb t "")
  | None => false
  end.

(** [s || d] for a possibly missing string [s]. *)
Definition or_else (s : option string) (d : string) : string :=
  match s with
  | Some t => if String.eqb t "" then d else t
  | None => d
  end.

End JS.

(** ** Data exchanged with the server *)

(** [model_data] of the mesh response.  A field that is absent, [null] or
    [undefined] is [None]; an array, even an empty one, is [Some]. *)
Record ModelData : Type := mkModelData {
  vertices : option (list float);
  faces : option (list float);
  normals : option (list float);
  colors : option (list float)
}.

(** The object [parameters] built by [generateHeartbeatData]. *)
Record HeartbeatParameters : Type := mkHeartbeatParameters {
  heart_rate : float;
  stress_level : float;
  activity_level : float;
  emotion : string;
  duration : float
}.

(** The object [parameters] built by [generate3DBracelet]. *)
Record BraceletParameters : Type := mkBraceletParameters {
  heartbeat_data : list float;
  radius : float;
  thickness : float;
  height_variation : float;
  pattern_intensity : float;
  smoothness : float
}.

(** Response envelope of [POST /generate_heartbeat]. *)
Record HeartbeatResponse : Type := mkHeartbeatResponse {
  hb_success : bool;
  hb_heartbeat_data : option (list float);
  hb_error : option string
}.

(** Response envelope of [POST /generate_3d_bracelet]. *)
Record BraceletResponse : Type := mkBraceletResponse {
  br_success : bool;
  br_model_data : option ModelData;
  br_stl_file : option string;
  br_error : option string
}.

(** A thrown value; only [error.message] is ever read. *)
Record JsError : Type := mkError { message : string }.

(** What [await fetch(...)] followed by [await response.json()] can do. *)
Inductive FetchResult (A : Type) : Type :=
| NetworkError (e : JsError)                 (* fetch rejects *)
| NotJson (status : nat) (e : JsError)       (* response.json() rejects *)
| Json (status : nat) (result : A).          (* a parsed envelope *)
Arguments NetworkError {A} e.
Arguments NotJson {A} status e.
Arguments Json {A} status result.

Inductive RequestBody : Type :=
| HeartbeatBody (p : HeartbeatParameters)
| BraceletBody (p : BraceletParameters).

(** ** Three.js objects, as far as the client builds them *)

(** A typed array is represented by the sequence its constructor was
    given; the conversion of the elements is the platform's. *)
Inductive TypedArray : Type :=
| Float32Array (src : list float)
| Uint32Array (src : list float).

Record BufferAttribute : Type := mkBufferAttribute {
  array : TypedArray;
  itemSize : nat
}.

Inductive NormalAttribute : Type :=
| NormalFromData (a : BufferAttribute)   (* geometry.setAttribute('normal', ...) *)
| NormalComputed.                        (* geometry.computeVertexNormals() *)

Record BufferGeometry : Type := mkBufferGeometry {
  position : BufferAttribute;
  index : BufferAttribute;
  normal : NormalAttribute;
  color : option BufferAttribute
}.

(** [MeshPhongMaterial]: the colour, shininess, specular and side are
    constants; [vertexColors] depends on the data. *)
Record Material : Type := mkMaterial { vertexColors : bool }.

(** A mesh has an identity: [scene.remove] removes that object. *)
Record Mesh : Type := mkMesh {
  mesh_id : nat;
  geometry : BufferGeometry;
  material : Material;
  castShadow : bool;
  receiveShadow : bool
}.

(** ** Observable effects *)

Inductive Level : Type := Log | Error.

(** Values printed after the text of a console message. *)
Inductive Arg : Type :=
| ArgNat (n : nat)
| ArgNumber (x : float)
| ArgHeartbeatParameters (p : HeartbeatParameters)
| ArgBraceletParameters (p : BraceletParameters)
| ArgHeartbeatResponse (r : HeartbeatResponse)
| ArgBraceletResponse (r : BraceletResponse)
| ArgModelData (m : ModelData)
| ArgLengths (vertices_length faces_length normals_length colors_length : option nat)
| ArgError (e : JsError).

Inductive Event : Type :=
| Console (level : Level) (text : string) (args : list Arg)
| Alert (text : string)
| WindowOpen (url target : string)
| Fetch (url : string) (body : RequestBody).

(** ** The application state *)

(** The fields of [this] that the modelled methods use.  The camera and
    the orbit controls are represented by the mesh they were last framed
    on; the bounding box arithmetic is Three.js's. *)
Record App : Type := mkApp {
  scene : list Mesh;
  braceletMesh : option Mesh;
  currentHeartbeatData : option (list float);
  currentSTLFile : option string;
  cameraTarget : option nat
}.

(** The [value]s of the inputs, as the strings the DOM holds. *)
Record Form : Type := mkForm {
  input_heart_rate : string;
  input_stress_level : string;
  input_activity_level : string;
  input_emotion : string;
  input_duration : string;
  input_radius : string;
  input_thickness : string;
  input_height_variation : string;
  input_pattern_intensity : string;
  input_smoothness : string
}.

(** The elements [generateBracelet] writes to.  A [textContent] that was
    assigned a number is [Some] of that number. *)
Record Dom : Type := mkDom {
  form : Form;
  generateBtn_disabled : bool;
  generateBtn_textContent : string;
  loading_display : string;
  infoPanel_display : string;
  downloadSection_display : string;
  vertex_count : option float;
  face_count : option float
}.

Record World : Type := mkWorld {
  app : App;
  dom : Dom;
  events : list Event;       (* oldest first *)
  next_id : nat              (* identity of the next object created *)
}.

(** What lies outside the program: the two parsers of the platform, the
    message the engine puts in the [TypeError] it throws when a property
    of [undefined] is read, and the server behind [fetch].  The server is
    a function of the request: a run of [generateBracelet] calls each
    endpoint at most once. *)
Record Env : Type := mkEnv {
  parseInt : string -> float;
  parseFloat : string -> float;
  typeErrorMessage : string -> string;
  heartbeat_api : HeartbeatParameters -> FetchResult HeartbeatResponse;
  bracelet_api : BraceletParameters -> FetchResult BraceletResponse
}.

(** *** Field updates *)

Definition set_app (f : App -> App) (w : World) : World :=
  mkWorld (f (app w)) (dom w) (events w) (next_id w).
Definition set_dom (f : Dom -> Dom) (w : World) : World :=
  mkWorld (app w) (f (dom w)) (events w) (next_id w).

Definition with_scene (s : list Mesh) (a : App) : App :=
  mkApp s (braceletMesh a) (currentHeartbeatData a) (currentSTLFile a)
        (cameraTarget a).
Definition with_braceletMesh (m : option Mesh) (a : App) : App :=
  mkApp (scene a) m (currentHeartbeatData a) (currentSTLFile a)
        (cameraTarget a).
Definition with_currentHeartbeatData (d : option (list float)) (a : App) : App :=
  mkApp (scene a) (braceletMesh a) d (currentSTLFile a) (cameraTarget a).
Definition with_currentSTLFile (f : option string) (a : App) : App :=
  mkApp (scene a) (braceletMesh a) (currentHeartbeatData a) f
        (cameraTarget a).
Definition with_cameraTarget (t : option nat) (a : App) : App :=
  mkApp (scene a) (braceletMesh a) (currentHeartbeatData a)
        (currentSTLFile a) t.

Definition with_generateBtn (disabled : bool) (text : string) (d : Dom) : Dom :=
  mkDom (form d) disabled text (loading_display d) (infoPanel_display d)
        (downloadSection_display d) (vertex_count d) (face_count d).
Definition with_loading (v : string) (d : Dom) : Dom :=
  mkDom (form d) (generateBtn_disabled d) (generateBtn_textContent d) v
        (infoPanel_display d) (downloadSection_display d)
        (vertex_count d) (face_count d).
Definition with_infoPanel (v : string) (d : Dom) : Dom :=
  mkDom (form d) (generateBtn_disabled d) (generateBtn_textContent d)
        (loading_display d) v (downloadSection_display d)
        (vertex_count d) (face_count d).
Definition with_downloadSection (v : string) (d : Dom) : Dom :=
  mkDom (form d) (generateBtn_disabled d) (generateBtn_textContent d)
        (loading_display d) (infoPanel_display d) v
        (vertex_count d) (face_count d).
Definition with_vertex_count (x : float) (d : Dom) : Dom :=
  mkDom (form d) (generateBtn_disabled d) (generateBtn_textContent d)
        (loading_display d) (infoPanel_display d)
        (downloadSection_display d) (Some x) (face_count d).
Definition with_face_count (x : float) (d : Dom) : Dom :=
  mkDom (form d) (generateBtn_disabled d) (generateBtn_textContent d)
        (loading_display d) (infoPanel_display d)
        (downloadSection_display d) (vertex_count d) (Some x).

(** ** The monad of the methods: state over [World], with exceptions *)

Inductive Completion (A : Type) : Type :=
| Normal (a : A)
| Throw (e : JsError).
Arguments Normal {A} a.
Arguments Throw {A} e.

Definition Js (A : Type) : Type := World -> Completion A * World.

Definition ret {A} (a : A) : Js A := fun w => (Normal a, w).

Definition bind {A B} (m : Js A) (k : A -> Js B) : Js B :=
  fun w =>
    match m w with
    | (Normal a, w') => k a w'
    | (Throw e, w') => (Throw e, w')
    end.

Definition throw {A} (e : JsError) : Js A := fun w => (Throw e, w).

Notation "'let*' x ':=' m 'in' k" := (bind m (fun x => k))
  (at level 10, x name, m at level 100, k at level 200).
Notation "m ';;;' k" := (bind m (fun _ => k))
  (at level 100, k at level 200, right associativity).

(** [try { body } catch (error) { handler } finally { cleanup }] *)
Definition try_catch_finally (body : Js unit) (handler : JsError -> Js unit)
  (cleanup : Js unit) : Js unit :=
  fun w =>
    match body w with
    | (Normal _, w1) => cleanup w1
    | (Throw e, w1) =>
        match handler e w1 with
        | (Normal _, w2) => cleanup w2
        | (Throw e', w2) =>
            match cleanup w2 with
            | (Normal _, w3) => (Throw e', w3)
            | (Throw e'', w3) => (Throw e'', w3)
            end
        end
    end.

Definition emit (e : Event) : Js unit :=
  fun w => (Normal tt, mkWorld (app w) (dom w) (events w ++ [e]) (next_id w)).
Definition emit_all (es : list Event) : Js unit :=
  fun w => (Normal tt, mkWorld (app w) (dom w) (events w ++ es) (next_id w)).
Definition console_log (text : string) (args : list Arg) : Js unit :=
  emit (Console Log text args).
Definition console_error (text : string) (args : list Arg) : Js unit :=
  emit (Console Error text args).
Definition alert (text : string) : Js unit := emit (Alert text).

Definition get {A} (f : World -> A) : Js A := fun w => (Normal (f w), w).
Definition update_app (f : App -> App) : Js unit :=
  fun w => (Normal tt, set_app f w).
Definition update_dom (f : Dom -> Dom) : Js unit :=
  fun w => (Normal tt, set_dom f w).

(** [new THREE.Mesh(...)]: a fresh identity. *)
Definition new_id : Js nat :=
  fun w => (Normal (next_id w),
            mkWorld (app w) (dom w) (events w) (S (next_id w))).

(** ** The vertex check of [visualizeBracelet] (lines 330-347) *)

Record Scan : Type := mkScan {
  nanCount : nat;
  infCount : nat;
  scanLog : list Event
}.

Definition scanStart : Scan := mkScan 0 0 [].

(** Body of the first loop, at index [i]. *)
Definition checkStep (vertices : list float) (st : Scan) (i : nat) : Scan :=
  let v := JS.at_index vertices i in
  if JS.isNaN v then
    let n := S (nanCount st) in
    mkScan n (infCount st)
      (if (n <=? 5)%nat
       then scanLog st
              ++ [Console Log ("🔍 NaN found at index " +:+ pretty i +:+ ", value:")
                          [ArgNumber v]]
       else scanLog st)
  else if negb (JS.isFinite v) then
    let n := S (infCount st) in
    mkScan (nanCount st) n
      (if (n <=? 5)%nat
       then scanLog st
              ++ [Console Log ("🔍 Infinity found at index " +:+ pretty i +:+ ", value:")
                          [ArgNumber v]]
       else scanLog st)
  else st.

(** [for (let i = 0; i < vertices.length; i++) { ... }]: the body does not
    write to [vertices], so the bound is fixed. *)
Definition checkVertices (vertices : list float) : Scan :=
  foldl (checkStep vertices) scanStart (seq 0 (length vertices)).

(** ** The repair (lines 353-358) *)

(** Body of the second loop, at index [i]: [vertices[i] = 0] is an update
    in place.  The index is below [vertices.length], so the array never
    grows and stdpp's insert is the assignment. *)
Definition replaceStep (vertices : list float) (i : nat) : list float :=
  let v := JS.at_index vertices i in
  if JS.isNaN v || negb (JS.isFinite v) then <[i := 0%float]> vertices
  else vertices.

Definition replaceInvalid (vertices : list float) : list float :=
  foldl replaceStep vertices (seq 0 (length vertices)).

(** `Invalid values detected - NaN: ${nanCount}, Infinity: ${infCount}` *)
Definition invalidValuesMessage (nan inf : nat) : string :=
  "⚠️ Invalid values detected - NaN: " +:+ pretty nan
    +:+ ", Infinity: " +:+ pretty inf.

(** Lines 330-362 as one function of the array: the array after the
    block, and what the block wrote to the console. *)
Definition sanitizeVertices (vertices : list float)
  : list float * list Event :=
  let st := checkVertices vertices in
  if (0 <? nanCount st)%nat || (0 <? infCount st)%nat then
    (replaceInvalid vertices,
     scanLog st
       ++ [Console Error (invalidValuesMessage (nanCount st) (infCount st)) [];
           Console Log "🔧 Cleaning data..." [];
           Console Log "✅ Invalid values cleaned" []])
  else
    (vertices, scanLog st ++ [Console Log "✅ All vertex values are valid" []]).

(** ** The methods of [HeartbeatBraceletApp] *)

Section Methods.

Variable env : Env.

(** [visualizeBracelet(braceletData)].  The argument is the object
    [model_data] of the response, or [None] when the response has none.
    The method assigns to the elements of [braceletData.vertices], an
    array its caller still holds: the result is the state of the
    argument object when the method returns. *)
Definition visualizeBracelet (braceletData : option ModelData) : Js ModelData :=
  console_log "🎨 Starting bracelet visualization..." [] ;;;
  match braceletData with
  | None =>
      (* braceletData.vertices?.length reads a property of undefined *)
      throw (mkError (typeErrorMessage env "vertices"))
  | Some data =>
      console_log "🎨 Bracelet data received:"
        [ArgLengths (length <$> vertices data) (length <$> faces data)
                    (length <$> normals data) (length <$> colors data)] ;;;
      (* Remove existing bracelet *)
      let* old := get (fun w => braceletMesh (app w)) in
      match old with
      | Some m =>
          update_app (fun a =>
            with_scene (filter (fun o => mesh_id o ≠ mesh_id m) (scene a)) a) ;;;
          console_log "🎨 Removed existing bracelet mesh" []
      | None => ret tt
      end ;;;
      (* Validate bracelet data *)
      match vertices data, faces data with
      | Some vs, Some fs =>
          console_log "🎨 Vertices count:" [ArgNat (length vs)] ;;;
          console_log "🎨 Faces count:" [ArgNat (length fs)] ;;;
          (* Check for NaN values in vertices; replace invalid values *)
          let (vs', out) := sanitizeVertices vs in
          emit_all out ;;;
          (* Create geometry from data *)
          console_log "🎨 Creating Three.js geometry..." [] ;;;
          let position := mkBufferAttribute (Float32Array vs') 3 in
          console_log "🎨 Position attribute set" [] ;;;
          let index := mkBufferAttribute (Uint32Array fs) 1 in
          console_log "🎨 Index attribute set" [] ;;;
          let* normal :=
            match normals data with
            | Some ns =>
                console_log "🎨 Normal attribute set from data" [] ;;;
                ret (NormalFromData (mkBufferAttribute (Float32Array ns) 3))
            | None =>
                console_log "🎨 Normal attribute computed" [] ;;;
                ret NormalComputed
            end in
          let color :=
            match colors data with
            | Some cs => Some (mkBufferAttribute (Float32Array cs) 3)
            | None => None
            end in
          let geometry := mkBufferGeometry position index normal color in
          let material :=
            mkMaterial (match colors data with Some _ => true | None => false end) in
          (* Create mesh, add to scene *)
          let* id := new_id in
          let mesh := mkMesh id geometry material true true in
          update_app (with_braceletMesh (Some mesh)) ;;;
          update_app (fun a => with_scene (scene a ++ [mesh]) a) ;;;
          (* Center camera on bracelet *)
          update_app (with_cameraTarget (Some id)) ;;;
          ret (mkModelData (Some vs') (faces data) (normals data) (colors data))
      | _, _ =>
          console_error "❌ Invalid bracelet data received:" [ArgModelData data] ;;;
          ret data
      end
  end.

(** The object [parameters] of [generateHeartbeatData] (lines 254-260). *)
Definition heartbeatParameters (f : Form) : HeartbeatParameters :=
  mkHeartbeatParameters
    (parseInt env (input_heart_rate f))
    (parseFloat env (input_stress_level f))
    (parseFloat env (input_activity_level f))
    (input_emotion f)
    (parseInt env (input_duration f)).

(** [generateHeartbeatData()] *)
Definition generateHeartbeatData : Js HeartbeatResponse :=
  let* f := get (fun w => form (dom w)) in
  let parameters := heartbeatParameters f in
  console_log "📊 Sending heartbeat parameters:"
    [ArgHeartbeatParameters parameters] ;;;
  emit (Fetch "/generate_heartbeat" (HeartbeatBody parameters)) ;;;
  match heartbeat_api env parameters with
  | NetworkError e => throw e
  | NotJson status e =>
      console_log "📊 Heartbeat API response status:" [ArgNat status] ;;;
      throw e
  | Json status result =>
      console_log "📊 Heartbeat API response status:" [ArgNat status] ;;;
      console_log "📊 Heartbeat API result:" [ArgHeartbeatResponse result] ;;;
      ret result
  end.

(** The object [parameters] of [generate3DBracelet] (lines 280-287). *)
Definition braceletParameters (heartbeatData : list float) (f : Form)
  : BraceletParameters :=
  mkBraceletParameters
    heartbeatData
    (parseFloat env (input_radius f))
    (parseFloat env (input_thickness f))
    (parseFloat env (input_height_variation f))
    (parseFloat env (input_pattern_intensity f))
    (parseFloat env (input_smoothness f)).

(** [generate3DBracelet(heartbeatData)] *)
Definition generate3DBracelet (heartbeatData : list float) : Js BraceletResponse :=
  let* f := get (fun w => form (dom w)) in
  let parameters := braceletParameters heartbeatData f in
  console_log "🔧 Sending 3D bracelet parameters:"
    [ArgBraceletParameters parameters] ;;;
  emit (Fetch "/generate_3d_bracelet" (BraceletBody parameters)) ;;;
  match bracelet_api env parameters with
  | NetworkError e => throw e
  | NotJson status e =>
      console_log "🔧 3D Bracelet API response status:" [ArgNat status] ;;;
      throw e
  | Json status result =>
      console_log "🔧 3D Bracelet API response status:" [ArgNat status] ;;;
      console_log "🔧 3D Bracelet API result:" [ArgBraceletResponse result] ;;;
      ret result
  end.

(** [array.length / 3], the number written into the info panel. *)
Definition third_of_length (a : list float) : float :=
  (JS.of_nat (length a) / 3)%float.

(** The [try] block of [generateBracelet] (lines 203-240). *)
Definition generateBracelet_body : Js unit :=
  (* Step 1: Generate heartbeat data *)
  console_log "📊 Step 1: Generating heartbeat data..." [] ;;;
  let* heartbeatData := generateHeartbeatData in
  console_log "📊 Heartbeat data response:" [ArgHeartbeatResponse heartbeatData] ;;;
  (if negb (hb_success heartbeatData)
   then throw (mkError (JS.or_else (hb_error heartbeatData)
                                   "Failed to generate heartbeat data"))
   else ret tt) ;;;
  update_app (with_currentHeartbeatData (hb_heartbeat_data heartbeatData)) ;;;
  match hb_heartbeat_data heartbeatData with
  | None =>
      (* heartbeatData.heartbeat_data.length reads a property of undefined *)
      throw (mkError (typeErrorMessage env "length"))
  | Some samples =>
      console_log "📊 Heartbeat data length:" [ArgNat (length samples)] ;;;
      (* Step 2: Generate 3D bracelet *)
      console_log "🔧 Step 2: Generating 3D bracelet..." [] ;;;
      let* braceletData := generate3DBracelet samples in
      console_log "🔧 Bracelet data response:" [ArgBraceletResponse braceletData] ;;;
      (if negb (br_success braceletData)
       then throw (mkError (JS.or_else (br_error braceletData)
                                       "Failed to generate 3D bracelet"))
       else ret tt) ;;;
      (* Step 3: Visualize in Three.js *)
      console_log "🎨 Step 3: Visualizing bracelet..." [] ;;;
      let* modelData := visualizeBracelet (br_model_data braceletData) in
      (* Update info panel *)
      match vertices modelData with
      | None => throw (mkError (typeErrorMessage env "length"))
      | Some vs =>
          update_dom (with_vertex_count (third_of_length vs)) ;;;
          match faces modelData with
          | None => throw (mkError (typeErrorMessage env "length"))
          | Some fs =>
              update_dom (with_face_count (third_of_length fs)) ;;;
              (* Store STL file reference *)
              update_app (with_currentSTLFile (br_stl_file braceletData)) ;;;
              (* Show info and download options *)
              update_dom (with_infoPanel "block") ;;;
              update_dom (with_downloadSection "block") ;;;
              console_log "✅ Bracelet generation completed successfully!" []
          end
      end
  end.

(** [generateBracelet()] *)
Definition generateBracelet : Js unit :=
  console_log "🚀 Starting bracelet generation..." [] ;;;
  (* Show loading *)
  update_dom (with_generateBtn true "⏳ Generating...") ;;;
  update_dom (with_loading "block") ;;;
  update_dom (with_infoPanel "none") ;;;
  update_dom (with_downloadSection "none") ;;;
  try_catch_finally
    generateBracelet_body
    (fun error =>
       console_error "❌ Error generating bracelet:" [ArgError error] ;;;
       alert ("Error generating bracelet: " +:+ message error))
    (* Hide loading *)
    (update_dom (with_generateBtn false "🚀 Generate 3D Bracelet") ;;;
     update_dom (with_loading "none")).

(** [downloadSTL()] *)
Definition downloadSTL : Js unit :=
  let* file := get (fun w => currentSTLFile (app w)) in
  if JS.truthy file
  then emit (WindowOpen ("/download_stl/" +:+ default "" file) "_blank")
  else alert "Please generate a bracelet first!".

(** [downloadOBJ()]: for now, just download STL. *)
Definition downloadOBJ : Js unit :=
  downloadSTL.

End Methods.

(** ** The waveform preview, [generateHeartbeatPreview] *)

Module Preview.

Local Open Scope R_scope.

(** Calls on the 2D context of the canvas, in the order they are made. *)
Inductive CanvasOp : Type :=
| ClearRect (x y w h : R)
| StrokeStyle (style : string)
| LineWidth (w : R)
| BeginPath
| MoveTo (x y : R)
| LineTo (x y : R)
| Stroke.

Definition Rltb (a b : R) : bool := if Rlt_dec a b then true else false.
Definition Rgtb (a b : R) : bool := Rltb b a.

(** The integer part of [x], rounded towards zero. *)
Definition trunc (x : R) : Z :=
  if Rle_dec 0 x then Int_part x else (- Int_part (- x))%Z.

(** [n % d] on numbers, for [d] other than zero: the remainder of the
    truncated division, which has the sign of [n]. *)
Definition rem (n d : R) : R := n - d * IZR (trunc (n / d)).

Definition timeSpan : R := 3.   (* Show 3 seconds *)

(** [t] in iteration [i] of the loop (line 157). *)
Definition sampleTime (width i : nat) : R := (INR i / INR width) * timeSpan.

(** [beatPhase] (lines 152 and 158). *)
Definition beatPhaseAt (heartRate : Z) (t : R) : R :=
  let beatsPerSecond := IZR heartRate / 60 in
  rem (t * beatsPerSecond) 1.

(** The value of [amplitude] when line 173 is reached (lines 160-171). *)
Definition amplitudeBeforeNoise (heartRate : Z) (activityLevel t : R) : R :=
  let beatPhase := beatPhaseAt heartRate t in
  (* QRS complex *)
  if Rltb beatPhase 0.1 then
    let qrsPhase := beatPhase / 0.1 in
    sin (qrsPhase * PI) * (0.8 + activityLevel * 0.4)
  (* T wave *)
  else if Rgtb beatPhase 0.3 && Rltb beatPhase 0.6 then
    let tPhase := (beatPhase - 0.3) / 0.3 in
    sin (tPhase * PI) * 0.3
  else 0.

(** The term added on line 174, for the value [random] that
    [Math.random()] returned. *)
Definition stressNoise (stressLevel random : R) : R :=
  (random - 0.5) * stressLevel * 0.2.

(** The value of [amplitude] after line 174. *)
Definition amplitudeAt (heartRate : Z) (stressLevel activityLevel t random : R) : R :=
  amplitudeBeforeNoise heartRate activityLevel t
  + stressNoise stressLevel random.

(** The state of a run: how many numbers [Math.random()] has handed out
    so far, and the calls made on the context. *)
Record Run : Type := mkRun {
  calls : nat;
  ops : list CanvasOp
}.

Section Draw.

Variables width height : nat.          (* canvas.width, canvas.height *)
Variable heartRate : Z.                (* parseInt(...) *)
Variables stressLevel activityLevel : R.
(** The numbers [Math.random()] returns, in the order of the calls. *)
Variable random : nat -> R.

(** Body of the loop, at index [i] (lines 157-182). *)
Definition drawStep (st : Run) (i : nat) : Run :=
  let centerY := INR height / 2 in
  let t := sampleTime width i in
  let amplitude :=
    amplitudeAt heartRate stressLevel activityLevel t (random (calls st)) in
  let y := centerY - amplitude * (INR height * 0.3) in
  mkRun (S (calls st))
        (ops st ++ [if (i =? 0)%nat then MoveTo (INR i) y else LineTo (INR i) y]).

(** Lines 136-185, from the parsed parameters on. *)
Definition generateHeartbeatPreview (st : Run) : Run :=
  let st1 :=
    mkRun (calls st)
          (ops st ++ [ClearRect 0 0 (INR width) (INR height);
                      StrokeStyle "#ffd700"; LineWidth 2; BeginPath]) in
  let st2 := foldl drawStep st1 (seq 0 width) in
  mkRun (calls st2) (ops st2 ++ [Stroke]).

(** The values [amplitude] takes on line 176, one per iteration, in a
    run that starts after [calls0] calls of [Math.random()]. *)
Definition amplitudes (calls0 : nat) : list R :=
  map (fun i => amplitudeAt heartRate stressLevel activityLevel
                  (sampleTime width i) (random (calls0 + i)))
      (seq 0 width).

End Draw.

End Preview.

(** ** The amplitude of the preview in binary64 *)

Module Preview64.

Local Open Scope float_scope.
Local Set Warnings "-inexact-float".

(** [Math.PI], the double nearest to the number pi. *)
Definition Math_PI : float := 0x1.921fb54442d18p+1.

(** [x % 1] on numbers: [NaN] for a dividend that is not finite, the
    dividend itself when it is a zero, and otherwise what is left of
    [x] = +-[m] * 2^[e] after its integer part is taken away, with the
    sign of [x].  The subtraction is exact: below 2^53 the integer part
    is a double, and so is the difference. *)
Definition rem1 (x : float) : float :=
  match Prim2SF x with
  | S754_nan | S754_infinity _ => nan
  | S754_zero _ => x
  | S754_finite s m e =>
      let r :=
        if (e <? 0)%Z
        then abs x - PrimFloat.of_uint63 (Uint63.of_Z (Z.shiftr (Z.pos m) (- e)))
        else 0 in
      if s then - r else r
  end.

Section Engine.

(** [Math.sin]: the language leaves its values to the engine. *)
Variable Math_sin : float -> float.

(** [t] in iteration [i] of the loop (line 157). *)
Definition sampleTime (width i : nat) : float :=
  (JS.of_nat i / JS.of_nat width) * 3.

(** The value of [amplitude] when line 173 is reached (lines 152, 158
    and 160-171), for the number [heartRate] that [parseInt] returned. *)
Definition amplitudeBeforeNoise (heartRate activityLevel t : float) : float :=
  let beatsPerSecond := heartRate / 60 in
  let beatPhase := rem1 (t * beatsPerSecond) in
  (* QRS complex *)
  if beatPhase <? 0.1 then
    let qrsPhase := beatPhase / 0.1 in
    Math_sin (qrsPhase * Math_PI) * (0.8 + activityLevel * 0.4)
  (* T wave *)
  else if (0.3 <? beatPhase) && (beatPhase <? 0.6) then
    let tPhase := (beatPhase - 0.3) / 0.3 in
    Math_sin (tPhase * Math_PI) * 0.3
  else 0.

End Engine.

End Preview64.

(** ** The waveform synthesizer of the server *)

Module Server.

Local Open Scope R_scope.

(** Modelled from the spec: the WaveformSynthesizer that answers
    [POST /generate_heartbeat].  Its code is not among the sources, which
    hold the browser client only; the definitions of this module follow
    sections 3, 4.1 and 7 of the specification. *)
Record HeartbeatParameters : Type := mkHeartbeatParameters {
  heart_rate : Z;          (* beats per minute *)
  stress_level : R;
  activity_level : R;
  emotion : string;
  duration : Z             (* seconds *)
}.

(** Modelled from the spec: the error taxonomy of section 7. *)
Inductive Failure : Type :=
| InvalidParameter
| GenerationFailure
| NumericAnomaly
| TransportFailure.

Section Synthesizer.

Variable sample_rate : nat.          (* samples per second, fixed *)
(** The draws of [uniform_noise(-0.5, 0.5)], in order. *)
Variable uniform_noise : nat -> R.

(** Modelled from the spec: one cardiac cycle, section 4.1. *)
Definition cycle (p : HeartbeatParameters) (beat_phase : R) : R :=
  if Preview.Rltb beat_phase 0.1 then
    sin (beat_phase / 0.1 * PI) * (0.8 + activity_level p * 0.4)
  else if Preview.Rltb 0.3 beat_phase && Preview.Rltb beat_phase 0.6 then
    sin ((beat_phase - 0.3) / 0.3 * PI) * 0.3
  else 0.

(** Modelled from the spec: sample [k], taken at time
    [k / sample_rate], with the [n]-th draw of the noise. *)
Definition sample (p : HeartbeatParameters) (n k : nat) : R :=
  let beats_per_second := IZR (heart_rate p) / 60 in
  let t := INR k / INR sample_rate in
  let beat_phase := frac_part (t * beats_per_second) in
  cycle p beat_phase + uniform_noise n * stress_level p * 0.2.

(** Modelled from the spec: the synthesizer.  The second component is
    the number of samples generated so far, which is also the number
    of noise draws consumed; [drawn] is its value before the call. *)
Definition synthesize (p : HeartbeatParameters) (drawn : nat)
  : (Failure + list R) * nat :=
  if (heart_rate p <=? 0)%Z || (duration p <=? 0)%Z then
    (inl InvalidParameter, drawn)
  else
    let count := (Z.to_nat (duration p) * sample_rate)%nat in
    (inr (map (fun k => sample p (drawn + k) k) (seq 0 count)),
     (drawn + count)%nat).

End Synthesizer.

End Server.

(** ** Vocabulary of the statements *)

(** What the second loop does to one element. *)
Definition repaired (x : float) : float :=
  if JS.isFinite x then x else 0%float.

(** The number of elements of [l] that satisfy [p]. *)
Definition count_if (p : float -> bool) (l : list float) : nat :=
  length (List.filter p l).

Definition nonfinite (x : float) : bool := negb (JS.isFinite x).
Definition infinite (x : float) : bool :=
  negb (JS.isNaN x) && negb (JS.isFinite x).

Definition all_finite (l : list float) : Prop :=
  Forall (fun x => JS.isFinite x = true) l.

(** Every coordinate the claimed sanitizer would scan is finite: the
    vertices, and the normals and the colours when present. *)
Definition scanned_values_finite (m : ModelData) : Prop :=
  (forall vs, vertices m = Some vs -> all_finite vs)
  /\ (forall ns, normals m = Some ns -> all_finite ns)
  /\ (forall cs, colors m = Some cs -> all_finite cs).

(** The attributes [visualizeBracelet] hands to the geometry for the
    faces, the normals and the colours of a model. *)
Definition index_of (fs : list float) : BufferAttribute :=
  mkBufferAttribute (Uint32Array fs) 1.
Definition normal_of (ns : option (list float)) : NormalAttribute :=
  match ns with
  | Some l => NormalFromData (mkBufferAttribute (Float32Array l) 3)
  | None => NormalComputed
  end.
Definition color_of (cs : option (list float)) : option BufferAttribute :=
  match cs with
  | Some l => Some (mkBufferAttribute (Float32Array l) 3)
  | None => None
  end.

(** The call [generateHeartbeatPreview] makes on the context in iteration
    [i], for the value [amplitude] has on line 176. *)
Definition point (height i : nat) (amplitude : R) : Preview.CanvasOp :=
  let y := (INR height / 2 - amplitude * (INR height * 0.3))%R in
  if (i =? 0)%nat then Preview.MoveTo (INR i) y else Preview.LineTo (INR i) y.

Definition is_fetch (e : Event) : bool :=
  match e with Fetch _ _ => true | _ => false end.

(** The requests among some events, in order. *)
Definition fetches (es : list Event) : list Event := List.filter is_fetch es.

(** The state the constructor leaves, before any bracelet was made. *)
Definition initial_app : App := mkApp [] None None None None.

Definition example_form : Form :=
  mkForm "72" "0.3" "0.5" "calm" "10" "30" "3" "2" "1" "0.5".

Definition example_dom : Dom :=
  mkDom example_form false "🚀 Generate 3D Bracelet" "none" "none" "none"
        None None.

Definition example_world : World := mkWorld initial_app example_dom [] 0.

(** A server that rejects every heartbeat request. *)
Definition failing_env : Env :=
  mkEnv (fun _ => 72%float) (fun _ => 0.5%float)
        (fun p => "Cannot read properties of undefined (reading '" +:+ p +:+ "')")
        (fun _ => Json 200 (mkHeartbeatResponse false None
                              (Some "heart_rate must be positive")))
        (fun _ => NetworkError (mkError "Failed to fetch")).

(** A mesh whose normals hold a [NaN]. *)
Definition example_model : ModelData :=
  mkModelData (Some [1%float; nan; infinity])
              (Some [0%float; 1%float; 2%float])
              (Some [0%float; nan; 1%float])
              (Some [neg_infinity; 0.5%float; 0.5%float]).

(** A server that answers both requests. *)
Definition working_env : Env :=
  mkEnv (fun _ => 72%float) (fun _ => 0.5%float)
        (fun p => "Cannot read properties of undefined (reading '" +:+ p +:+ "')")
        (fun _ => Json 200 (mkHeartbeatResponse true
                              (Some [0%float; 1%float]) None))
        (fun _ => Json 200 (mkBraceletResponse true (Some example_model)
                              (Some "bracelet_1.stl") None)).


(** ** The parameter displays, [updateParameterDisplays] *)

Module Displays.

(** An element of the page, as far as the method reads and writes it:
    the [value] of an input and the [textContent] of the element. *)
Record Element : Type := mkElement {
  value : string;
  textContent : string
}.

(** The array [parameters] (lines 117-120). *)
Definition parameters : list string :=
  ["heart-rate"; "stress-level"; "activity-level"; "duration";
   "radius"; "thickness"; "height-variation"; "pattern-intensity";
   "smoothness"].

(** [param + '-value'], the id of the display of a parameter. *)
Definition display_id (param : string) : string := param +:+ "-value".

(** Body of the [forEach] (lines 123-127), on the page as the map from
    ids to elements that [document.getElementById] reads: an id without
    an element gives [null], and the assignment is skipped. *)
Definition updateDisplay (doc : gmap string Element) (param : string)
  : gmap string Element :=
  match doc !! param, doc !! display_id param with
  | Some slider, Some display =>
      <[display_id param := mkElement (value display) (value slider)]> doc
  | _, _ => doc
  end.

(** [updateParameterDisplays()] *)
Definition updateParameterDisplays (doc : gmap string Element)
  : gmap string Element :=
  foldl updateDisplay doc parameters.

End Displays.

(** ** Vocabulary of the further statements *)

(** The scene holds no bracelet mesh, or exactly the current one. *)
Definition single_mesh (a : App) : Prop :=
  scene a = [] \/ exists m, braceletMesh a = Some m /\ scene a = [m].

(** Successive runs of [generateBracelet], each against the server as it
    behaves at that time. *)
Definition generations (servers : list Env) (w : World) : World :=
  foldl (fun w env => snd (generateBracelet env w)) w servers.

(** A point of the path lies on the canvas. *)
Definition on_canvas (width height : nat) (op : Preview.CanvasOp) : Prop :=
  match op with
  | Preview.MoveTo x y | Preview.LineTo x y =>
      (0 <= x < INR width /\ 0 <= y <= INR height)%R
  | _ => True
  end.

(** A page with the slider and the display of the heart rate, and the
    slider of the duration without its display. *)
Definition example_page : gmap string Displays.Element :=
  <["heart-rate" := Displays.mkElement "72" ""]>
    (<["heart-rate-value" := Displays.mkElement "" "60"]>
       (<["duration" := Displays.mkElement "10" ""]> ∅)).

(** A world in which a bracelet is on display. *)
Definition shown_world : World :=
  snd (generateBracelet working_env example_world).

(** A server whose mesh request fails. *)
Definition half_working_env : Env :=
  mkEnv (fun _ => 72%float) (fun _ => 0.5%float)
        (fun p => "Cannot read properties of undefined (reading '" +:+ p +:+ "')")
        (fun _ => Json 200 (mkHeartbeatResponse true
                              (Some [2%float; 3%float]) None))
        (fun _ => Json 500 (mkBraceletResponse false None None
                              (Some "mesh generation failed"))).

(** A server that cannot be reached. *)
Definition unreachable_env : Env :=
  mkEnv (fun _ => 72%float) (fun _ => 0.5%float)
        (fun p => "Cannot read properties of undefined (reading '" +:+ p +:+ "')")
        (fun _ => NetworkError (mkError "Failed to fetch"))
        (fun _ => NetworkError (mkError "Failed to fetch")).

(** A server that reports success without samples. *)
Definition no_samples_env : Env :=
  mkEnv (fun _ => 72%float) (fun _ => 0.5%float)
        (fun p => "Cannot read properties of undefined (reading '" +:+ p +:+ "')")
        (fun _ => Json 200 (mkHeartbeatResponse true None None))
        (fun _ => NetworkError (mkError "Failed to fetch")).

(** A model without faces. *)
Definition faceless_model : ModelData :=
  mkModelData (Some [1%float; 2%float; 3%float]) None None None.

(** A server whose model has no faces. *)
Definition no_faces_env : Env :=
  mkEnv (fun _ => 72%float) (fun _ => 0.5%float)
        (fun p => "Cannot read properties of undefined (reading '" +:+ p +:+ "')")
        (fun _ => Json 200 (mkHeartbeatResponse true
                              (Some [0%float; 1%float]) None))
        (fun _ => Json 200 (mkBraceletResponse true (Some faceless_model)
                              (Some "bracelet_2.stl") None)).

(** * Properties *)

(** ** Classification of numbers *)

Section Numbers.

Lemma isNaN_not_isFinite (x : float) :
  JS.isNaN x = true -> JS.isFinite x = false.
Proof.
  unfold JS.isNaN, JS.isFinite, is_finite. intros ->. reflexivity.
Qed.

(** The test of the repair loop is the negation of [isFinite]. *)
Lemma invalid_test (x : float) :
  JS.isNaN x || negb (JS.isFinite x) = negb (JS.isFinite x).
Proof.
  destruct (JS.isNaN x) eqn:E; [| reflexivity].
  rewrite (isNaN_not_isFinite x E). reflexivity.
Qed.

Lemma isFinite_zero : JS.isFinite 0%float = true.
Proof. reflexivity. Qed.

End Numbers.

(** ** The repair loop *)

Section Repair.

Implicit Types (vs done rest : list float) (x : float).

Lemma at_index_middle done x rest :
  JS.at_index (done ++ x :: rest) (length done) = x.
Proof.
  unfold JS.at_index. rewrite list_lookup_middle by reflexivity. reflexivity.
Qed.

Lemma replaceStep_middle done x rest :
  replaceStep (done ++ x :: rest) (length done)
  = (done ++ [repaired x]) ++ rest.
Proof.
  unfold replaceStep. rewrite at_index_middle, invalid_test.
  unfold repaired. rewrite <- app_assoc. simpl.
  destruct (JS.isFinite x); simpl; [reflexivity |].
  replace (length done) with (length done + 0)%nat by lia.
  rewrite insert_app_r. reflexivity.
Qed.

Lemma replaceStep_length vs (i : nat) :
  length (replaceStep vs i) = length vs.
Proof.
  unfold replaceStep.
  destruct (JS.isNaN _ || negb _); [apply length_insert | reflexivity].
Qed.

(** Loop invariant: after the indices of [done], that prefix is
    repaired and the rest is as received. *)
Lemma replace_loop rest : forall done,
  foldl replaceStep (done ++ rest) (seq (length done) (length rest))
  = done ++ map repaired rest.
Proof.
  induction rest as [| x rest IH]; intros done; simpl.
  - reflexivity.
  - rewrite replaceStep_middle.
    specialize (IH (done ++ [repaired x])).
    rewrite length_app in IH. simpl in IH.
    replace (length done + 1)%nat with (S (length done)) in IH by lia.
    rewrite IH, <- app_assoc. reflexivity.
Qed.

Lemma replaceInvalid_map vs : replaceInvalid vs = map repaired vs.
Proof. exact (replace_loop vs []). Qed.

Lemma repaired_finite x : JS.isFinite (repaired x) = true.
Proof.
  unfold repaired. destruct (JS.isFinite x) eqn:E; [exact E | reflexivity].
Qed.

Lemma repaired_id x : JS.isFinite x = true -> repaired x = x.
Proof. unfold repaired. intros ->. reflexivity. Qed.

Lemma map_repaired_clean vs :
  Forall (fun x => JS.isFinite x = true) vs -> map repaired vs = vs.
Proof.
  induction 1 as [| x l Hx _ IH]; simpl; [reflexivity |].
  rewrite (repaired_id x Hx), IH. reflexivity.
Qed.

Lemma map_repaired_finite vs :
  Forall (fun x => JS.isFinite x = true) (map repaired vs).
Proof.
  induction vs as [| x l IH]; simpl; constructor;
    [apply repaired_finite | exact IH].
Qed.

End Repair.

(** ** The counting loop *)

Section Counting.

Implicit Types (vs done rest : list float) (st : Scan).

Lemma checkStep_counts done x rest st :
  nanCount (checkStep (done ++ x :: rest) st (length done))
    = (nanCount st + (if JS.isNaN x then 1 else 0))%nat
  /\ infCount (checkStep (done ++ x :: rest) st (length done))
    = (infCount st + (if infinite x then 1 else 0))%nat.
Proof.
  unfold checkStep, infinite. rewrite at_index_middle.
  destruct (JS.isNaN x); simpl; [split; lia |].
  destruct (JS.isFinite x); simpl; split; lia.
Qed.

Lemma check_loop rest : forall done st,
  let st' := foldl (checkStep (done ++ rest)) st
                   (seq (length done) (length rest)) in
  nanCount st' = (nanCount st + count_if JS.isNaN rest)%nat
  /\ infCount st' = (infCount st + count_if infinite rest)%nat.
Proof.
  induction rest as [| x rest IH]; intros done st; simpl.
  - unfold count_if. simpl. split; lia.
  - destruct (checkStep_counts done x rest st) as [Hn Hi].
    specialize (IH (done ++ [x]) (checkStep (done ++ x :: rest) st (length done))).
    rewrite <- app_assoc, length_app in IH. simpl in IH.
    replace (length done + 1)%nat with (S (length done)) in IH by lia.
    destruct IH as [IHn IHi]. rewrite IHn, IHi, Hn, Hi.
    unfold count_if. simpl.
    destruct (JS.isNaN x), (infinite x); simpl; split; lia.
Qed.

Lemma checkVertices_counts vs :
  nanCount (checkVertices vs) = count_if JS.isNaN vs
  /\ infCount (checkVertices vs) = count_if infinite vs.
Proof. exact (check_loop vs [] scanStart). Qed.

(** An entry is not finite when it is [NaN] or infinite, never both. *)
Lemma count_nonfinite_split vs :
  count_if nonfinite vs = (count_if JS.isNaN vs + count_if infinite vs)%nat.
Proof.
  unfold count_if. induction vs as [| x l IH]; simpl; [reflexivity |].
  unfold nonfinite at 1, infinite at 1.
  destruct (JS.isNaN x) eqn:En.
  - rewrite (isNaN_not_isFinite x En). simpl. lia.
  - destruct (JS.isFinite x); simpl; lia.
Qed.


Lemma count_nonfinite_zero vs :
  count_if nonfinite vs = 0%nat -> Forall (fun x => JS.isFinite x = true) vs.
Proof.
  unfold count_if. induction vs as [| x l IH]; simpl; [constructor |].
  unfold nonfinite at 1. destruct (JS.isFinite x) eqn:E; simpl.
  - intros H. constructor; [exact E | exact (IH H)].
  - discriminate.
Qed.

End Counting.

(** ** The sanitizing block of [visualizeBracelet] *)

Section Sanitize.

Implicit Types (vs : list float).

(** The block is the repair of every element, whether or not the second
    loop runs. *)
Lemma sanitizeVertices_map vs : fst (sanitizeVertices vs) = map repaired vs.
Proof.
  unfold sanitizeVertices.
  destruct (checkVertices_counts vs) as [Hn Hi].
  destruct ((0 <? nanCount (checkVertices vs))%nat
            || (0 <? infCount (checkVertices vs))%nat) eqn:E; simpl.
  - apply replaceInvalid_map.
  - apply orb_false_iff in E. destruct E as [En Ei].
    apply Nat.ltb_ge in En, Ei.
    symmetry. apply map_repaired_clean, count_nonfinite_zero.
    rewrite count_nonfinite_split. lia.
Qed.

Lemma sanitizeVertices_lookup vs (i : nat) x :
  vs !! i = Some x -> fst (sanitizeVertices vs) !! i = Some (repaired x).
Proof.
  intros H. rewrite sanitizeVertices_map, list_lookup_fmap, H. reflexivity.
Qed.

Lemma sanitizeVertices_length vs :
  length (fst (sanitizeVertices vs)) = length vs.
Proof. rewrite sanitizeVertices_map. apply length_map. Qed.

Lemma sanitizeVertices_finite vs : all_finite (fst (sanitizeVertices vs)).
Proof. rewrite sanitizeVertices_map. apply map_repaired_finite. Qed.

End Sanitize.

(** ** Events *)

Section Events.

Lemma fetches_app (a b : list Event) : fetches (a ++ b) = fetches a ++ fetches b.
Proof. apply List.filter_app. Qed.

Lemma checkStep_fetches vs st (i : nat) :
  fetches (scanLog (checkStep vs st i)) = fetches (scanLog st).
Proof.
  unfold checkStep.
  repeat match goal with
         | |- context [if ?b then _ else _] => destruct b; cbn [scanLog]
         end;
    try reflexivity; rewrite fetches_app; simpl; apply app_nil_r.
Qed.

Lemma check_loop_fetches vs (l : list nat) : forall st,
  fetches (scanLog (foldl (checkStep vs) st l)) = fetches (scanLog st).
Proof.
  induction l as [| i l IH]; intros st; simpl; [reflexivity |].
  rewrite IH. apply checkStep_fetches.
Qed.

(** The sanitizing block only writes to the console. *)
Lemma sanitizeVertices_fetches vs : fetches (snd (sanitizeVertices vs)) = [].
Proof.
  unfold sanitizeVertices.
  destruct (_ || _); simpl; rewrite fetches_app; simpl;
    rewrite app_nil_r; apply (check_loop_fetches vs _ scanStart).
Qed.

End Events.

(** ** [visualizeBracelet] *)

Ltac js_unfold :=
  unfold bind, console_log, console_error, alert, emit, emit_all, get,
         update_app, update_dom, ret, throw, new_id, set_app, set_dom.

Section Visualize.

Variable env : Env.

(** On a model with vertices and faces the method returns normally; the
    argument object then holds the sanitized vertices, and the new mesh
    is the current one. *)
Lemma visualizeBracelet_valid data vs fs w :
  vertices data = Some vs -> faces data = Some fs ->
  exists w',
    visualizeBracelet env (Some data) w
    = (Normal (mkModelData (Some (fst (sanitizeVertices vs))) (Some fs)
                           (normals data) (colors data)), w')
    /\ braceletMesh (app w')
       = Some (mkMesh (next_id w)
                 (mkBufferGeometry
                    (mkBufferAttribute
                       (Float32Array (fst (sanitizeVertices vs))) 3)
                    (index_of fs) (normal_of (normals data))
                    (color_of (colors data)))
                 (mkMaterial (match colors data with
                              | Some _ => true
                              | None => false
                              end))
                 true true)
    /\ exists new, events w' = events w ++ new /\ fetches new = [].
Proof.
  intros Hv Hf. unfold visualizeBracelet. rewrite Hv, Hf.
  pose proof (sanitizeVertices_fetches vs) as Hout.
  destruct (sanitizeVertices vs) as [vs' out]. simpl in Hout.
  js_unfold. simpl.
  destruct (braceletMesh (app w)); simpl;
    destruct (normals data); simpl;
    (eexists; split; [reflexivity |]; split; [reflexivity |]);
    simpl; repeat rewrite <- app_assoc; simpl;
    (eexists; split; [reflexivity |]);
    unfold fetches in *; simpl;
    repeat (rewrite List.filter_app; simpl); rewrite Hout; reflexivity.
Qed.

(** Without vertices or without faces it reports the model and returns,
    leaving the model and the current mesh as they were. *)
Lemma visualizeBracelet_invalid data w :
  vertices data = None \/ faces data = None ->
  exists w',
    visualizeBracelet env (Some data) w = (Normal data, w')
    /\ braceletMesh (app w') = braceletMesh (app w)
    /\ exists new, events w' = events w ++ new /\ fetches new = [].
Proof.
  intros H. unfold visualizeBracelet. js_unfold. simpl.
  assert (Hm : match vertices data, faces data with
               | Some _, Some _ => False
               | _, _ => True
               end).
  { destruct H as [-> | ->]; [exact I |]. destruct (vertices data); exact I. }
  destruct (braceletMesh (app w)) eqn:Hb; simpl;
    destruct (vertices data), (faces data); try contradiction; simpl;
    (eexists; split; [reflexivity |];
     split; [simpl; try rewrite Hb; reflexivity |]);
    simpl; repeat rewrite <- app_assoc; simpl;
    (eexists; split; [reflexivity |]); reflexivity.
Qed.

(** Without a model it throws. *)
Lemma visualizeBracelet_missing w :
  exists w',
    visualizeBracelet env None w
    = (Throw (mkError (typeErrorMessage env "vertices")), w')
    /\ app w' = app w
    /\ exists new, events w' = events w ++ new /\ fetches new = [].
Proof.
  unfold visualizeBracelet. js_unfold. simpl.
  eexists; split; [reflexivity |]; split; [reflexivity |].
  simpl. eexists; split; reflexivity.
Qed.

(** In every case the method issues no request. *)
Lemma visualizeBracelet_no_fetch data w :
  exists new,
    events (snd (visualizeBracelet env data w)) = events w ++ new
    /\ fetches new = [].
Proof.
  destruct data as [data |].
  - destruct (vertices data) as [vs |] eqn:Hv.
    + destruct (faces data) as [fs |] eqn:Hf.
      * destruct (visualizeBracelet_valid data vs fs w Hv Hf)
          as (w' & -> & _ & H). exact H.
      * destruct (visualizeBracelet_invalid data w (or_intror Hf))
          as (w' & -> & _ & H). exact H.
    + destruct (visualizeBracelet_invalid data w (or_introl Hv))
        as (w' & -> & _ & H). exact H.
  - destruct (visualizeBracelet_missing w) as (w' & -> & _ & H). exact H.
Qed.

End Visualize.

(** ** The sanitizer: what is repaired, what is counted, what is left *)

Section Sanitizer.

Implicit Types (vs : list float).

Lemma check_loop_clean vs (l : list nat) : forall st,
  all_finite vs -> Forall (fun i => i < length vs) l ->
  foldl (checkStep vs) st l = st.
Proof.
  induction l as [| i l IH]; intros st Hvs Hl; simpl; [reflexivity |].
  inversion Hl as [| ? ? Hi Hl']; subst.
  assert (Hfin : JS.isFinite (JS.at_index vs i) = true).
  { unfold JS.at_index. destruct (lookup_lt_is_Some_2 vs i Hi) as [x Hx].
    rewrite Hx. simpl.
    unfold all_finite in Hvs. rewrite Forall_forall in Hvs.
    apply Hvs. apply list_elem_of_lookup. eauto. }
  assert (Hstep : checkStep vs st i = st).
  { unfold checkStep.
    destruct (JS.isNaN (JS.at_index vs i)) eqn:En.
    - rewrite (isNaN_not_isFinite _ En) in Hfin. discriminate.
    - rewrite Hfin. reflexivity. }
  rewrite Hstep. apply IH; assumption.
Qed.

(** On clean data the block changes nothing and says so. *)
Lemma sanitizeVertices_clean vs :
  all_finite vs ->
  sanitizeVertices vs = (vs, [Console Log "✅ All vertex values are valid" []]).
Proof.
  intros H. unfold sanitizeVertices, checkVertices.
  rewrite (check_loop_clean vs _ scanStart H).
  - reflexivity.
  - apply Forall_forall. intros i Hi. apply elem_of_seq in Hi. lia.
Qed.

(** C3: sanitization is idempotent.  On a sequence whose values are all
    finite the pass returns the sequence unchanged, and on any sequence
    a second pass returns what the first one returned. *)
Theorem sanitize_idempotent vs :
  (all_finite vs -> fst (sanitizeVertices vs) = vs)
  /\ fst (sanitizeVertices (fst (sanitizeVertices vs)))
     = fst (sanitizeVertices vs).
Proof.
  split.
  - intros H. rewrite (sanitizeVertices_clean vs H). reflexivity.
  - rewrite (sanitizeVertices_clean (fst (sanitizeVertices vs))
               (sanitizeVertices_finite vs)).
    reflexivity.
Qed.


End Sanitizer.

Section Frame.

Variable env : Env.

(** C2, amended: the block scans the vertices only.  Every vertex that
    is not finite becomes 0 and every finite vertex keeps its value, so
    all vertices of the model are finite afterwards, and the position
    attribute of the mesh is built from them; the normals and the colours
    are not scanned and stay as received. *)
Theorem sanitizer_repairs_vertices data vs fs w :
  vertices data = Some vs -> faces data = Some fs ->
  exists data' w' vs' mesh,
    visualizeBracelet env (Some data) w = (Normal data', w')
    /\ vertices data' = Some vs'
    /\ length vs' = length vs
    /\ (forall (i : nat) x, vs !! i = Some x ->
          vs' !! i = Some (if JS.isFinite x then x else 0%float))
    /\ all_finite vs'
    /\ braceletMesh (app w') = Some mesh
    /\ position (geometry mesh) = mkBufferAttribute (Float32Array vs') 3
    /\ normals data' = normals data
    /\ colors data' = colors data.
Proof.
  intros Hv Hf.
  destruct (visualizeBracelet_valid env data vs fs w Hv Hf)
    as (w' & Hrun & Hmesh & _).
  eexists _, w', (fst (sanitizeVertices vs)), _.
  split; [exact Hrun |]. split; [reflexivity |].
  split; [apply sanitizeVertices_length |].
  split; [intros i x Hx; apply (sanitizeVertices_lookup vs i x Hx) |].
  split; [apply sanitizeVertices_finite |].
  split; [exact Hmesh |]. repeat split.
Qed.

(** C10: the repair writes to the vertices only.  The faces, the normals
    and the colours of the model are the received ones when the method
    returns, and the geometry is built from exactly these sequences,
    whatever values they hold. *)
Theorem repair_frame data w :
  exists data' w',
    visualizeBracelet env (Some data) w = (Normal data', w')
    /\ faces data' = faces data
    /\ normals data' = normals data
    /\ colors data' = colors data
    /\ (forall vs fs, vertices data = Some vs -> faces data = Some fs ->
        exists mesh,
          braceletMesh (app w') = Some mesh
          /\ index (geometry mesh) = index_of fs
          /\ normal (geometry mesh) = normal_of (normals data)
          /\ color (geometry mesh) = color_of (colors data)).
Proof.
  destruct (vertices data) as [vs |] eqn:Hv;
    [destruct (faces data) as [fs |] eqn:Hf |].
  - destruct (visualizeBracelet_valid env data vs fs w Hv Hf)
      as (w' & Hrun & Hmesh & _).
    eexists _, w'. split; [exact Hrun |]. simpl.
    do 3 (split; [reflexivity |]).
    intros vs0 fs0 [= <-] [= <-]. eexists. split; [exact Hmesh |].
    simpl. auto.
  - destruct (visualizeBracelet_invalid env data w (or_intror Hf))
      as (w' & Hrun & _).
    exists data, w'. split; [exact Hrun |].
    do 3 (split; [assumption || reflexivity |]).
    intros ? ? _ [=].
  - destruct (visualizeBracelet_invalid env data w (or_introl Hv))
      as (w' & Hrun & _).
    exists data, w'. split; [exact Hrun |].
    do 3 (split; [reflexivity |]).
    intros ? ? [=].
Qed.

End Frame.

(** C2 as stated fails: the normals and the colours of [example_model]
    hold values that are not finite, and they still do when
    [visualizeBracelet] returns. *)
Lemma sanitizer_skips_normals :
  exists data' w',
    visualizeBracelet failing_env (Some example_model) example_world
    = (Normal data', w')
    /\ normals data' = Some [0%float; nan; 1%float]
    /\ ~ scanned_values_finite data'.
Proof.
  eexists _, _. split; [vm_compute; reflexivity |]. split; [reflexivity |].
  intros (_ & Hn & _). specialize (Hn _ eq_refl).
  inversion Hn as [| ? ? _ Hrest]; subst.
  inversion Hrest as [| ? ? Hnan _]; subst.
  vm_compute in Hnan. discriminate.
Qed.

(** ** [generateBracelet] *)

Ltac close_trace Hnf :=
  simpl; repeat rewrite <- app_assoc; simpl;
  eexists; split; [reflexivity |];
  unfold fetches in *; simpl;
  repeat (rewrite List.filter_app; simpl); try rewrite Hnf; reflexivity.

Section Generate.

Variable env : Env.

(** When the first response reports success and carries samples, the run
    issues exactly two requests, the waveform request and then the mesh
    request with those samples, whatever the second answer is. *)
Lemma generateBracelet_two_requests w status resp samples :
  heartbeat_api env (heartbeatParameters env (form (dom w))) = Json status resp ->
  hb_success resp = true ->
  hb_heartbeat_data resp = Some samples ->
  exists new,
    events (snd (generateBracelet env w)) = events w ++ new
    /\ fetches new
       = [Fetch "/generate_heartbeat"
                (HeartbeatBody (heartbeatParameters env (form (dom w))));
          Fetch "/generate_3d_bracelet"
                (BraceletBody (braceletParameters env samples (form (dom w))))].
Proof.
  intros Hapi Hs Hd.
  unfold generateBracelet, try_catch_finally, generateBracelet_body,
    generateHeartbeatData, generate3DBracelet.
  js_unfold. simpl. rewrite Hapi. simpl. rewrite Hs, Hd. simpl.
  destruct (bracelet_api env _) as [e | st e | st r]; simpl.
  1, 2: close_trace I.
  destruct (br_success r); simpl.
  2: close_trace I.
  match goal with
  | |- context [visualizeBracelet env ?d ?W] =>
      destruct (visualizeBracelet_no_fetch env d W) as (new & Hev & Hnf);
      destruct (visualizeBracelet env d W) as [[md | e] w3]
  end; simpl in Hev.
  2: { simpl. rewrite Hev. close_trace Hnf. }
  destruct (vertices md); simpl; [destruct (faces md); simpl |];
    rewrite Hev; close_trace Hnf.
Qed.

(** When the first response reports failure, the run ends after it: the
    trace is fixed, and only the loading indicators of the page have
    changed. *)
Lemma generateBracelet_first_failure w status resp :
  heartbeat_api env (heartbeatParameters env (form (dom w))) = Json status resp ->
  hb_success resp = false ->
  let parameters := heartbeatParameters env (form (dom w)) in
  let text := JS.or_else (hb_error resp) "Failed to generate heartbeat data" in
  exists w',
    generateBracelet env w = (Normal tt, w')
    /\ events w'
       = events w
         ++ [Console Log "🚀 Starting bracelet generation..." [];
             Console Log "📊 Step 1: Generating heartbeat data..." [];
             Console Log "📊 Sending heartbeat parameters:"
                     [ArgHeartbeatParameters parameters];
             Fetch "/generate_heartbeat" (HeartbeatBody parameters);
             Console Log "📊 Heartbeat API response status:" [ArgNat status];
             Console Log "📊 Heartbeat API result:" [ArgHeartbeatResponse resp];
             Console Log "📊 Heartbeat data response:" [ArgHeartbeatResponse resp];
             Console Error "❌ Error generating bracelet:"
                     [ArgError (mkError text)];
             Alert ("Error generating bracelet: " +:+ text)]
    /\ app w' = app w
    /\ infoPanel_display (dom w') = "none"
    /\ downloadSection_display (dom w') = "none"
    /\ vertex_count (dom w') = vertex_count (dom w)
    /\ face_count (dom w') = face_count (dom w).
Proof.
  intros Hapi Hs parameters text.
  unfold generateBracelet, try_catch_finally, generateBracelet_body,
    generateHeartbeatData.
  js_unfold. simpl. rewrite Hapi. simpl. rewrite Hs. simpl.
  eexists. split; [reflexivity |]. simpl.
  repeat rewrite <- app_assoc. simpl. repeat split.
Qed.

(** Whatever the server does, the waveform request is the first request
    of a run, and the only request that can follow it is the mesh
    request. *)
Lemma generateBracelet_requests w :
  exists new rest,
    events (snd (generateBracelet env w)) = events w ++ new
    /\ fetches new
       = Fetch "/generate_heartbeat"
               (HeartbeatBody (heartbeatParameters env (form (dom w)))) :: rest
    /\ (rest = []
        \/ exists samples,
             rest = [Fetch "/generate_3d_bracelet"
                           (BraceletBody
                              (braceletParameters env samples (form (dom w))))]).
Proof.
  destruct (heartbeat_api env (heartbeatParameters env (form (dom w))))
    as [e | status e | status resp] eqn:Hapi.
  1, 2: unfold generateBracelet, try_catch_finally, generateBracelet_body,
          generateHeartbeatData;
        js_unfold; simpl; rewrite Hapi; simpl;
        repeat rewrite <- app_assoc; simpl;
        eexists _, []; split; [reflexivity |]; split; [| left]; reflexivity.
  destruct (hb_success resp) eqn:Hs.
  - destruct (hb_heartbeat_data resp) as [samples |] eqn:Hd.
    + destruct (generateBracelet_two_requests w status resp samples Hapi Hs Hd)
        as (new & Hev & Hf).
      eexists new, _. split; [exact Hev |]. split; [exact Hf |].
      right. exists samples. reflexivity.
    + unfold generateBracelet, try_catch_finally, generateBracelet_body,
        generateHeartbeatData.
      js_unfold. simpl. rewrite Hapi. simpl. rewrite Hs, Hd. simpl.
      repeat rewrite <- app_assoc. simpl.
      eexists _, []. split; [reflexivity |]. split; [| left]; reflexivity.
  - destruct (generateBracelet_first_failure w status resp Hapi Hs)
      as (w' & Hrun & Hev & _).
    rewrite Hrun. simpl.
    eexists _, []. split; [exact Hev |]. split; [| left]; reflexivity.
Qed.

(** C7: the two round trips.  The waveform request is always the first
    request and only the mesh request can follow it; after a successful
    first answer the mesh request does follow, with the samples of that
    answer.  When the first answer has [success: false] there is no
    second request: the run logs the error, shows the message of the
    envelope in an alert (the fixed text when the envelope has none),
    leaves the scene, the current mesh and the stored data untouched and
    keeps the info panel and the download section hidden. *)
Theorem generateBracelet_round_trips w :
  let parameters := heartbeatParameters env (form (dom w)) in
  (exists new rest,
      events (snd (generateBracelet env w)) = events w ++ new
      /\ fetches new = Fetch "/generate_heartbeat" (HeartbeatBody parameters) :: rest
      /\ (rest = []
          \/ exists samples,
               rest = [Fetch "/generate_3d_bracelet"
                             (BraceletBody
                                (braceletParameters env samples (form (dom w))))]))
  /\ (forall status resp samples,
        heartbeat_api env parameters = Json status resp ->
        hb_success resp = true ->
        hb_heartbeat_data resp = Some samples ->
        exists new,
          events (snd (generateBracelet env w)) = events w ++ new
          /\ fetches new
             = [Fetch "/generate_heartbeat" (HeartbeatBody parameters);
                Fetch "/generate_3d_bracelet"
                      (BraceletBody
                         (braceletParameters env samples (form (dom w))))])
  /\ (forall status resp,
        heartbeat_api env parameters = Json status resp ->
        hb_success resp = false ->
        let text := JS.or_else (hb_error resp) "Failed to generate heartbeat data" in
        exists w' new,
          generateBracelet env w = (Normal tt, w')
          /\ events w' = events w ++ new
          /\ fetches new = [Fetch "/generate_heartbeat" (HeartbeatBody parameters)]
          /\ last new = Some (Alert ("Error generating bracelet: " +:+ text))
          /\ (forall message, hb_error resp = Some message -> message <> "" ->
              text = message)
          /\ app w' = app w
          /\ infoPanel_display (dom w') = "none"
          /\ downloadSection_display (dom w') = "none"
          /\ vertex_count (dom w') = vertex_count (dom w)
          /\ face_count (dom w') = face_count (dom w)).
Proof.
  intros parameters. split; [exact (generateBracelet_requests w) |]. split.
  - intros status resp samples Hapi Hs Hd.
    exact (generateBracelet_two_requests w status resp samples Hapi Hs Hd).
  - intros status resp Hapi Hs text.
    destruct (generateBracelet_first_failure w status resp Hapi Hs)
      as (w' & Hrun & Hev & Happ & Hinfo & Hdl & Hvc & Hfc).
    eexists w', _. split; [exact Hrun |]. split; [exact Hev |].
    split; [reflexivity |]. split; [reflexivity |].
    split.
    { intros message Hm Hne. subst text. rewrite Hm. simpl.
      destruct (String.eqb_spec message ""); [contradiction | reflexivity]. }
    auto.
Qed.

(** C9: [downloadOBJ] is [downloadSTL].  In every state both open the
    STL download of the stored file when there is one, and otherwise
    both show the same alert. *)
Theorem downloadOBJ_is_downloadSTL w :
  downloadOBJ w = downloadSTL w
  /\ downloadOBJ w
     = (Normal tt,
        mkWorld (app w) (dom w)
          (events w
           ++ [if JS.truthy (currentSTLFile (app w))
               then WindowOpen
                      ("/download_stl/" +:+ default "" (currentSTLFile (app w)))
                      "_blank"
               else Alert "Please generate a bracelet first!"])
          (next_id w)).
Proof.
  split; [reflexivity |].
  unfold downloadOBJ, downloadSTL. js_unfold. simpl.
  destruct (JS.truthy (currentSTLFile (app w))); reflexivity.
Qed.

End Generate.

(** ** The preview waveform *)

Section Waveform.

Import Preview.
Local Open Scope R_scope.

Lemma Rltb_true a b : Rltb a b = true <-> a < b.
Proof. unfold Rltb. destruct (Rlt_dec a b); split; auto; discriminate. Qed.

Lemma Rltb_false a b : Rltb a b = false <-> ~ a < b.
Proof.
  unfold Rltb. destruct (Rlt_dec a b); split; auto; try discriminate.
  contradiction.
Qed.

(** On a dividend that is not negative, [% 1] is the fractional part. *)
Lemma rem_1_frac_part x : 0 <= x -> rem x 1 = frac_part x.
Proof.
  intros Hx. unfold rem, trunc.
  replace (x / 1) with x by field.
  destruct (Rle_dec 0 x); [| contradiction].
  unfold frac_part. ring.
Qed.

(** On a negative dividend it is not: the remainder keeps the sign. *)
Lemma rem_1_negative x : x < 0 -> -1 < rem x 1 <= 0.
Proof.
  intros Hx. unfold rem, trunc.
  replace (x / 1) with x by field.
  destruct (Rle_dec 0 x); [lra |].
  rewrite opp_IZR.
  destruct (base_Int_part (- x)) as [H1 H2]. lra.
Qed.

Lemma beats_nonneg (heartRate : Z) t :
  0 <= t -> (0 <= heartRate)%Z -> 0 <= t * (IZR heartRate / 60).
Proof.
  intros Ht Hh. apply IZR_le in Hh.
  apply Rmult_le_pos; [exact Ht | lra].
Qed.

Lemma beatPhaseAt_frac_part (heartRate : Z) t :
  0 <= t -> (0 <= heartRate)%Z ->
  beatPhaseAt heartRate t = frac_part (t * IZR heartRate / 60).
Proof.
  intros Ht Hh. unfold beatPhaseAt.
  rewrite (rem_1_frac_part _ (beats_nonneg heartRate t Ht Hh)).
  f_equal. unfold Rdiv. ring.
Qed.

Lemma frac_part_range x : 0 <= frac_part x < 1.
Proof. destruct (base_fp x). lra. Qed.

Lemma frac_part_small x : 0 <= x < 1 -> frac_part x = x.
Proof.
  intros Hx. unfold frac_part.
  rewrite <- (Int_part_spec x 0); simpl; lra.
Qed.

Lemma sampleTime_nonneg (width i : nat) : 0 <= sampleTime width i.
Proof.
  unfold sampleTime, timeSpan.
  pose proof (pos_INR i) as Hi.
  destruct width as [| n].
  - simpl. unfold Rdiv. rewrite Rinv_0. lra.
  - assert (0 < INR (S n)) by (apply lt_0_INR; lia).
    apply Rmult_le_pos; [| lra].
    apply Rmult_le_pos; [exact Hi |].
    left. apply Rinv_0_lt_compat. assumption.
Qed.

(** C1: the cardiac cycle.  For a sample time and a heart rate that are
    not negative, with [beat_phase] the fractional part of
    [t * heart_rate / 60], the amplitude before the noise is the QRS
    term below 0.1, the T wave term between 0.3 and 0.6, and 0
    otherwise. *)
Theorem waveform_piecewise (heartRate : Z) (activityLevel t : R) :
  0 <= t -> (0 <= heartRate)%Z ->
  let beat_phase := frac_part (t * IZR heartRate / 60) in
  (beat_phase < 0.1 ->
   amplitudeBeforeNoise heartRate activityLevel t
   = sin (beat_phase / 0.1 * PI) * (0.8 + activityLevel * 0.4))
  /\ (0.3 < beat_phase < 0.6 ->
      amplitudeBeforeNoise heartRate activityLevel t
      = sin ((beat_phase - 0.3) / 0.3 * PI) * 0.3)
  /\ (~ beat_phase < 0.1 -> ~ 0.3 < beat_phase < 0.6 ->
      amplitudeBeforeNoise heartRate activityLevel t = 0).
Proof.
  intros Ht Hh beat_phase. unfold amplitudeBeforeNoise.
  rewrite (beatPhaseAt_frac_part heartRate t Ht Hh). fold beat_phase.
  unfold Rgtb.
  destruct (Rltb beat_phase 0.1) eqn:E1;
    destruct (Rltb 0.3 beat_phase) eqn:E2;
    destruct (Rltb beat_phase 0.6) eqn:E3; simpl;
    rewrite ?Rltb_true, ?Rltb_false in *;
    repeat split; intros; try reflexivity; try lra; tauto.
Qed.

(** The amplitude before the noise lies between 0 and 1.2. *)
Lemma amplitudeBeforeNoise_range (heartRate : Z) (activityLevel t : R) :
  0 <= activityLevel <= 1 -> 0 <= t -> (0 <= heartRate)%Z ->
  0 <= amplitudeBeforeNoise heartRate activityLevel t <= 1.2.
Proof.
  intros Ha Ht Hh. unfold amplitudeBeforeNoise.
  rewrite (beatPhaseAt_frac_part heartRate t Ht Hh).
  set (bp := frac_part (t * IZR heartRate / 60)).
  pose proof (frac_part_range (t * IZR heartRate / 60)) as Hbp. fold bp in Hbp.
  pose proof PI_RGT_0 as Hpi.
  unfold Rgtb.
  destruct (Rltb bp 0.1) eqn:E1.
  - apply Rltb_true in E1.
    assert (Hq : 0 <= bp / 0.1 <= 1) by (split; lra).
    assert (Hs : 0 <= sin (bp / 0.1 * PI)).
    { apply sin_ge_0; nra. }
    pose proof (SIN_bound (bp / 0.1 * PI)) as [_ Hs1].
    split; nra.
  - destruct (Rltb 0.3 bp) eqn:E2; destruct (Rltb bp 0.6) eqn:E3; simpl;
      try lra.
    apply Rltb_true in E2, E3.
    assert (Hq : 0 <= (bp - 0.3) / 0.3 <= 1) by (split; lra).
    assert (Hs : 0 <= sin ((bp - 0.3) / 0.3 * PI)).
    { apply sin_ge_0; nra. }
    pose proof (SIN_bound ((bp - 0.3) / 0.3 * PI)) as [_ Hs1].
    split; nra.
Qed.

Lemma stressNoise_range (stressLevel random : R) :
  0 <= stressLevel -> 0 <= random < 1 ->
  - (0.5 * stressLevel * 0.2) <= stressNoise stressLevel random
    <= 0.5 * stressLevel * 0.2.
Proof. intros Hs Hr. unfold stressNoise. split; nra. Qed.

Lemma amplitudeAt_range (heartRate : Z) (stressLevel activityLevel t random : R) :
  0 <= activityLevel <= 1 -> 0 <= stressLevel <= 1 ->
  0 <= t -> (0 <= heartRate)%Z -> 0 <= random < 1 ->
  0 - 0.1 * stressLevel
  <= amplitudeAt heartRate stressLevel activityLevel t random
  <= 1.2 + 0.1 * stressLevel.
Proof.
  intros Ha Hs Ht Hh Hr.
  pose proof (amplitudeBeforeNoise_range heartRate activityLevel t Ha Ht Hh) as Hb.
  pose proof (stressNoise_range stressLevel random (proj1 Hs) Hr) as Hn.
  unfold amplitudeAt. lra.
Qed.


End Waveform.

(** ** The preview waveform in binary64 *)

Section Binary64.

Local Open Scope float_scope.
Local Set Warnings "-inexact-float".

(** [x % 1] at some dividends: a fraction, both signs, whole numbers
    (the zero keeps the sign of the dividend), a large number, and the
    numbers that are not finite. *)
Example rem1_values :
  map Preview64.rem1 [0.05; 1.25; -1.25; 7.75; 3; -3; 0; -0; 1e300]
  = [0.05; 0.25; -0.25; 0.75; 0; -0; 0; -0; 0]
  /\ PrimFloat.is_nan (Preview64.rem1 infinity) = true
  /\ PrimFloat.is_nan (Preview64.rem1 nan) = true.
Proof. repeat split; vm_compute; reflexivity. Qed.

(** The factor of the QRS complex at activity level 1: in binary64,
    [0.8 + 1 * 0.4] is the double above [1.2], not [1.2]. *)
Lemma qrs_factor_binary64 :
  0.8 + 1 * 0.4 = 0x1.3333333333334p+0
  /\ (1.2 : float) = 0x1.3333333333333p+0.
Proof. split; vm_compute; reflexivity. Qed.



End Binary64.

(** ** The drawing loop and its random numbers *)

Section Drawing.

Import Preview.
Local Open Scope R_scope.

Variables width height : nat.
Variable heartRate : Z.
Variables stressLevel activityLevel : R.

Lemma zip_with_map_same {A B C} (f : A -> B -> C) (g : A -> B) (l : list A) :
  zip_with f l (map g l) = map (fun x => f x (g x)) l.
Proof. induction l as [| x l IH]; simpl; [| rewrite IH]; reflexivity. Qed.

(** Loop invariant: iteration [i] consumes one random number and appends
    one call, the point of its amplitude. *)
Lemma draw_loop random (n : nat) : forall (k : nat) (st : Run),
  foldl (drawStep width height heartRate stressLevel activityLevel random)
        st (seq k n)
  = mkRun (calls st + n)
      (ops st
       ++ map (fun i =>
                 point height i
                   (amplitudeAt heartRate stressLevel activityLevel
                      (sampleTime width i) (random (calls st + (i - k))%nat)))
              (seq k n)).
Proof.
  induction n as [| n IH]; intros k st; simpl.
  - destruct st as [c o]. simpl. rewrite Nat.add_0_r, app_nil_r. reflexivity.
  - rewrite IH. unfold drawStep at 2 3. simpl.
    f_equal; [lia |].
    rewrite <- app_assoc. simpl. f_equal.
    rewrite Nat.sub_diag, Nat.add_0_r. unfold point at 2. f_equal.
    apply map_ext_in. intros i Hi. apply in_seq in Hi.
    do 3 f_equal. lia.
Qed.

(** The calls of a run: the four that prepare the path, one point per
    amplitude, and the stroke. *)
Lemma preview_draws_amplitudes random (st : Run) :
  ops (generateHeartbeatPreview width height heartRate stressLevel
         activityLevel random st)
  = ops st
    ++ [ClearRect 0 0 (INR width) (INR height); StrokeStyle "#ffd700";
        LineWidth 2; BeginPath]
    ++ zip_with (point height) (seq 0 width)
         (amplitudes width heartRate stressLevel activityLevel random (calls st))
    ++ [Stroke].
Proof.
  unfold generateHeartbeatPreview, amplitudes. rewrite draw_loop. simpl.
  rewrite zip_with_map_same. rewrite <- !app_assoc. simpl.
  do 6 f_equal. apply map_ext. intros i. do 3 f_equal. lia.
Qed.

Lemma preview_calls random (st : Run) :
  calls (generateHeartbeatPreview width height heartRate stressLevel
           activityLevel random st)
  = (calls st + width)%nat.
Proof. unfold generateHeartbeatPreview. rewrite draw_loop. reflexivity. Qed.

End Drawing.

Section Determinism.

Import Preview.
Local Open Scope R_scope.

Lemma amplitudeAt_no_stress (heartRate : Z) (activityLevel t random : R) :
  amplitudeAt heartRate 0 activityLevel t random
  = amplitudeBeforeNoise heartRate activityLevel t.
Proof. unfold amplitudeAt, stressNoise. ring. Qed.

(** C4: with [stress_level = 0] the waveform does not depend on the
    random numbers.  The amplitudes of a run are the amplitudes before
    the noise, so two runs with the same heart rate, activity level and
    canvas width have the same amplitudes, and they make the same calls
    on the canvas, whatever [Math.random()] returns in either. *)
Theorem preview_deterministic (width height : nat) (heartRate : Z)
    (activityLevel : R) (random1 random2 : nat -> R) (calls1 calls2 : nat)
    (drawn : list CanvasOp) :
  amplitudes width heartRate 0 activityLevel random1 calls1
  = map (fun i => amplitudeBeforeNoise heartRate activityLevel
                    (sampleTime width i)) (seq 0 width)
  /\ amplitudes width heartRate 0 activityLevel random1 calls1
     = amplitudes width heartRate 0 activityLevel random2 calls2
  /\ ops (generateHeartbeatPreview width height heartRate 0 activityLevel
            random1 (mkRun calls1 drawn))
     = ops (generateHeartbeatPreview width height heartRate 0 activityLevel
              random2 (mkRun calls2 drawn)).
Proof.
  assert (H : forall random c,
             amplitudes width heartRate 0 activityLevel random c
             = map (fun i => amplitudeBeforeNoise heartRate activityLevel
                               (sampleTime width i)) (seq 0 width)).
  { intros random c. unfold amplitudes. apply map_ext. intros i.
    apply amplitudeAt_no_stress. }
  split; [apply H |]. split; [rewrite !H; reflexivity |].
  rewrite !preview_draws_amplitudes. simpl. rewrite !H. reflexivity.
Qed.

(** Every amplitude of a run lies in the widened range. *)
Lemma preview_amplitudes_bounded (width : nat) (heartRate : Z)
    (stressLevel activityLevel : R) (random : nat -> R) (calls0 : nat) :
  0 <= activityLevel <= 1 -> 0 <= stressLevel <= 1 -> (0 <= heartRate)%Z ->
  (forall n, 0 <= random n < 1) ->
  Forall (fun a => 0 - 0.1 * stressLevel <= a <= 1.2 + 0.1 * stressLevel)
         (amplitudes width heartRate stressLevel activityLevel random calls0).
Proof.
  intros Ha Hs Hh Hr. unfold amplitudes. apply Forall_map, Forall_forall.
  intros i _.
  exact (amplitudeAt_range heartRate stressLevel activityLevel
           (sampleTime width i) (random (calls0 + i)%nat) Ha Hs
           (sampleTime_nonneg width i) Hh (Hr _)).
Qed.

End Determinism.

(** ** The synthesizer of the server *)

Section ServerSynthesizer.

Import Server.

Variable sample_rate : nat.
Variable uniform_noise : nat -> R.

(** C8: invalid parameters.  A heart rate or a duration that is not
    positive makes the synthesizer fail with [InvalidParameter] without
    generating a sample or drawing noise; it fails in no other way; and
    on positive values it returns duration * sample_rate samples. *)
Theorem synthesize_invalid_parameter (p : HeartbeatParameters) (drawn : nat) :
  ((heart_rate p <= 0)%Z \/ (duration p <= 0)%Z ->
   synthesize sample_rate uniform_noise p drawn = (inl InvalidParameter, drawn))
  /\ (forall failure drawn',
        synthesize sample_rate uniform_noise p drawn = (inl failure, drawn') ->
        failure = InvalidParameter
        /\ drawn' = drawn
        /\ ((heart_rate p <= 0)%Z \/ (duration p <= 0)%Z))
  /\ ((0 < heart_rate p)%Z -> (0 < duration p)%Z ->
      exists samples,
        synthesize sample_rate uniform_noise p drawn
        = (inr samples, (drawn + length samples)%nat)
        /\ length samples = (Z.to_nat (duration p) * sample_rate)%nat).
Proof.
  unfold synthesize.
  destruct ((heart_rate p <=? 0)%Z || (duration p <=? 0)%Z) eqn:E.
  - assert (Hbad : (heart_rate p <= 0)%Z \/ (duration p <= 0)%Z).
    { apply orb_true_iff in E. destruct E as [E | E];
        apply Z.leb_le in E; auto. }
    split; [reflexivity |]. split.
    + intros failure drawn' [= <- <-]. auto.
    + intros Hh Hd. lia.
  - apply orb_false_iff in E. destruct E as [E1 E2].
    apply Z.leb_gt in E1, E2.
    split; [intros [H | H]; lia |]. split.
    + intros failure drawn' [=].
    + intros _ _. eexists. split.
      * rewrite length_map, length_seq. reflexivity.
      * rewrite length_map, length_seq. reflexivity.
Qed.

End ServerSynthesizer.

(** ** Runs on concrete data *)

Section Runs.

(** Only the first five [NaN]s are logged one by one; all six are counted
    and repaired. *)
Example sanitize_six_nans :
  sanitizeVertices [nan; nan; nan; nan; nan; nan; 1%float]
  = ([0%float; 0%float; 0%float; 0%float; 0%float; 0%float; 1%float],
     [Console Log "🔍 NaN found at index 0, value:" [ArgNumber nan];
      Console Log "🔍 NaN found at index 1, value:" [ArgNumber nan];
      Console Log "🔍 NaN found at index 2, value:" [ArgNumber nan];
      Console Log "🔍 NaN found at index 3, value:" [ArgNumber nan];
      Console Log "🔍 NaN found at index 4, value:" [ArgNumber nan];
      Console Error "⚠️ Invalid values detected - NaN: 6, Infinity: 0" [];
      Console Log "🔧 Cleaning data..." [];
      Console Log "✅ Invalid values cleaned" []]).
Proof. vm_compute. reflexivity. Qed.

(** A complete generation against a server that answers both requests. *)
Example generateBracelet_success :
  let w := snd (generateBracelet working_env example_world) in
  currentHeartbeatData (app w) = Some [0%float; 1%float]
  /\ currentSTLFile (app w) = Some "bracelet_1.stl"
  /\ (position <$> (geometry <$> braceletMesh (app w)))
     = Some (mkBufferAttribute (Float32Array [1%float; 0%float; 0%float]) 3)
  /\ (mesh_id <$> scene (app w)) = [0%nat]
  /\ vertex_count (dom w) = Some 1%float
  /\ infoPanel_display (dom w) = "block"
  /\ downloadSection_display (dom w) = "block"
  /\ generateBtn_disabled (dom w) = false
  /\ length (events w) = 29%nat.
Proof. vm_compute. repeat split. Qed.

(** A second generation replaces the mesh in the scene. *)
Example generateBracelet_twice :
  let w1 := snd (generateBracelet working_env example_world) in
  let w2 := snd (generateBracelet working_env w1) in
  (mesh_id <$> scene (app w2)) = [1%nat]
  /\ (mesh_id <$> braceletMesh (app w2)) = Some 1%nat.
Proof. vm_compute. repeat split. Qed.

(** After a generation both download buttons open the STL file; before it
    both show the alert. *)
Example download_after_generation :
  let w := snd (generateBracelet working_env example_world) in
  last (events (snd (downloadOBJ w)))
  = Some (WindowOpen "/download_stl/bracelet_1.stl" "_blank")
  /\ last (events (snd (downloadSTL w)))
     = Some (WindowOpen "/download_stl/bracelet_1.stl" "_blank")
  /\ events (snd (downloadOBJ example_world))
     = [Alert "Please generate a bracelet first!"].
Proof. vm_compute. repeat split. Qed.

(** The client sends the parameters as they are, whatever the heart rate
    is, and returns the envelope the server answers with. *)
Lemma generateHeartbeatData_relays (env : Env) (w : World) status resp :
  heartbeat_api env (heartbeatParameters env (form (dom w))) = Json status resp ->
  exists w',
    generateHeartbeatData env w = (Normal resp, w')
    /\ fetches (events w')
       = fetches (events w)
         ++ [Fetch "/generate_heartbeat"
                   (HeartbeatBody (heartbeatParameters env (form (dom w))))]
    /\ app w' = app w /\ dom w' = dom w.
Proof.
  intros Hapi. unfold generateHeartbeatData. js_unfold. simpl.
  rewrite Hapi. simpl. eexists. split; [reflexivity |]. simpl.
  unfold fetches. repeat (rewrite List.filter_app; simpl).
  rewrite !app_nil_r. repeat split.
Qed.

End Runs.

(** * The statements at concrete inputs *)

Section Instances.

Import Preview.
Local Open Scope R_scope.

(** The three branches of the cycle at 60 beats per minute: t = 0.05 is
    in the QRS complex, t = 0.4 in the T wave, t = 0.7 on the
    baseline. *)
Lemma waveform_piecewise_witness :
  amplitudeBeforeNoise 60 0.5 0.05
  = sin (frac_part (0.05 * 60 / 60) / 0.1 * PI) * (0.8 + 0.5 * 0.4)
  /\ amplitudeBeforeNoise 60 0.5 0.4
     = sin ((frac_part (0.4 * 60 / 60) - 0.3) / 0.3 * PI) * 0.3
  /\ amplitudeBeforeNoise 60 0.5 0.7 = 0.
Proof.
  assert (Hh : (0 <= 60)%Z) by lia.
  assert (H1 : 0 <= 0.05) by lra.
  assert (H2 : 0 <= 0.4) by lra.
  assert (H3 : 0 <= 0.7) by lra.
  split; [| split].
  - apply (proj1 (waveform_piecewise 60 0.5 0.05 H1 Hh)).
    rewrite frac_part_small; lra.
  - apply (proj1 (proj2 (waveform_piecewise 60 0.5 0.4 H2 Hh))).
    rewrite frac_part_small; lra.
  - apply (proj2 (proj2 (waveform_piecewise 60 0.5 0.7 H3 Hh)));
      rewrite frac_part_small; lra.
Defined.


End Instances.

(** A clean array comes back as it is. *)
Lemma sanitize_idempotent_witness :
  all_finite [1%float; (-2.5)%float; 0%float]
  /\ fst (sanitizeVertices [1%float; (-2.5)%float; 0%float])
     = [1%float; (-2.5)%float; 0%float].
Proof.
  assert (H : all_finite [1%float; (-2.5)%float; 0%float])
    by (repeat constructor).
  split; [exact H |].
  exact (proj1 (sanitize_idempotent [1%float; (-2.5)%float; 0%float]) H).
Defined.


(** The repair of the vertices of [example_model]. *)
Lemma sanitizer_repairs_vertices_witness :
  exists data' w' vs' mesh,
    visualizeBracelet failing_env (Some example_model) example_world
    = (Normal data', w')
    /\ vertices data' = Some vs'
    /\ length vs' = length [1%float; nan; infinity]
    /\ (forall (i : nat) x, [1%float; nan; infinity] !! i = Some x ->
          vs' !! i = Some (if JS.isFinite x then x else 0%float))
    /\ all_finite vs'
    /\ braceletMesh (app w') = Some mesh
    /\ position (geometry mesh) = mkBufferAttribute (Float32Array vs') 3
    /\ normals data' = normals example_model
    /\ colors data' = colors example_model.
Proof.
  exact (sanitizer_repairs_vertices failing_env example_model
           [1%float; nan; infinity] [0%float; 1%float; 2%float]
           example_world eq_refl eq_refl).
Defined.

(** The normals and the colours of [example_model] reach the geometry
    with their [NaN] and their infinity. *)
Lemma repair_frame_witness :
  exists data' w' mesh,
    visualizeBracelet failing_env (Some example_model) example_world
    = (Normal data', w')
    /\ colors data' = Some [neg_infinity; 0.5%float; 0.5%float]
    /\ braceletMesh (app w') = Some mesh
    /\ normal (geometry mesh) = normal_of (Some [0%float; nan; 1%float])
    /\ color (geometry mesh)
       = color_of (Some [neg_infinity; 0.5%float; 0.5%float]).
Proof.
  destruct (repair_frame failing_env example_model example_world)
    as (data' & w' & Hrun & _ & _ & Hc & Hgeo).
  destruct (Hgeo _ _ eq_refl eq_refl) as (mesh & Hm & _ & Hn & Hcol).
  exists data', w', mesh. auto.
Defined.

(** Both requests against [working_env]; one request and the alert
    against [failing_env]. *)
Lemma generateBracelet_round_trips_witness :
  (exists new,
      events (snd (generateBracelet working_env example_world))
      = events example_world ++ new
      /\ fetches new
         = [Fetch "/generate_heartbeat"
                  (HeartbeatBody (heartbeatParameters working_env example_form));
            Fetch "/generate_3d_bracelet"
                  (BraceletBody
                     (braceletParameters working_env [0%float; 1%float]
                        example_form))])
  /\ (exists w' new,
        generateBracelet failing_env example_world = (Normal tt, w')
        /\ events w' = events example_world ++ new
        /\ fetches new
           = [Fetch "/generate_heartbeat"
                    (HeartbeatBody (heartbeatParameters failing_env example_form))]
        /\ last new
           = Some (Alert "Error generating bracelet: heart_rate must be positive")
        /\ app w' = app example_world
        /\ infoPanel_display (dom w') = "none"
        /\ downloadSection_display (dom w') = "none").
Proof.
  split.
  - exact (proj1 (proj2 (generateBracelet_round_trips working_env example_world))
             200 _ [0%float; 1%float] eq_refl eq_refl eq_refl).
  - destruct (proj2 (proj2 (generateBracelet_round_trips failing_env example_world))
                200 _ eq_refl eq_refl)
      as (w' & new & H1 & H2 & H3 & H4 & _ & H6 & H7 & H8 & _).
    exists w', new. auto 10.
Defined.

(** A heart rate of 0 is rejected with the count of samples unchanged;
    72 beats per minute for 3 seconds at 50 samples per second give 150
    samples. *)
Lemma synthesize_invalid_parameter_witness :
  Server.synthesize 50 (fun _ => 0%R)
    (Server.mkHeartbeatParameters 0 0.3 0.5 "calm" 10) 7
  = (inl Server.InvalidParameter, 7%nat)
  /\ exists samples,
       Server.synthesize 50 (fun _ => 0%R)
         (Server.mkHeartbeatParameters 72 0.3 0.5 "calm" 3) 7
       = (inr samples, (7 + length samples)%nat)
       /\ length samples = 150%nat.
Proof.
  split.
  - apply (proj1 (synthesize_invalid_parameter 50 (fun _ => 0%R)
                    (Server.mkHeartbeatParameters 0 0.3 0.5 "calm" 10) 7)).
    left. simpl. lia.
  - apply (proj2 (proj2 (synthesize_invalid_parameter 50 (fun _ => 0%R)
                    (Server.mkHeartbeatParameters 72 0.3 0.5 "calm" 3) 7)));
      simpl; lia.
Defined.

(** * Further properties *)

(** ** The log of the vertex check *)

Section LogBound.

Lemma checkStep_log vs st (i : nat) :
  length (scanLog st) = Nat.min 5 (nanCount st) + Nat.min 5 (infCount st) ->
  length (scanLog (checkStep vs st i))
  = Nat.min 5 (nanCount (checkStep vs st i))
    + Nat.min 5 (infCount (checkStep vs st i)).
Proof.
  intros H. unfold checkStep.
  destruct (JS.isNaN _); [| destruct (negb _)]; cbn [nanCount infCount scanLog];
    try exact H.
  - destruct (Nat.leb_spec (S (nanCount st)) 5);
      [rewrite length_app; cbn [length] |]; lia.
  - destruct (Nat.leb_spec (S (infCount st)) 5);
      [rewrite length_app; cbn [length] |]; lia.
Qed.

Lemma check_loop_log vs (l : list nat) : forall st,
  length (scanLog st) = Nat.min 5 (nanCount st) + Nat.min 5 (infCount st) ->
  length (scanLog (foldl (checkStep vs) st l))
  = Nat.min 5 (nanCount (foldl (checkStep vs) st l))
    + Nat.min 5 (infCount (foldl (checkStep vs) st l)).
Proof.
  induction l as [| i l IH]; intros st H; simpl; [exact H |].
  apply IH, checkStep_log, H.
Qed.

(** X1: the vertex check logs at most five [NaN]s and five infinities
    one by one, however many there are: the number of these lines is
    min(5, number of NaNs) + min(5, number of infinities), so the whole
    block writes at most 13 lines to the console. *)
Theorem detail_log_bounded vs :
  length (scanLog (checkVertices vs))
  = Nat.min 5 (count_if JS.isNaN vs) + Nat.min 5 (count_if infinite vs)
  /\ length (snd (sanitizeVertices vs)) <= 13.
Proof.
  assert (H : length (scanLog (checkVertices vs))
              = Nat.min 5 (nanCount (checkVertices vs))
                + Nat.min 5 (infCount (checkVertices vs))).
  { apply check_loop_log. reflexivity. }
  destruct (checkVertices_counts vs) as [Hn Hi].
  split; [rewrite H, Hn, Hi; reflexivity |].
  unfold sanitizeVertices.
  destruct (_ || _); simpl; rewrite length_app; simpl; lia.
Qed.

End LogBound.


(** ** More on [visualizeBracelet] and [generateBracelet] *)

Section VisualizeMore.

Variable env : Env.

Lemma filter_out_single (m : Mesh) :
  filter (fun o => mesh_id o ≠ mesh_id m) [m] = [].
Proof. rewrite filter_cons_False; [apply filter_nil | intros H; apply H; reflexivity]. Qed.

Lemma visualizeBracelet_keeps d w :
  dom (snd (visualizeBracelet env d w)) = dom w
  /\ currentSTLFile (app (snd (visualizeBracelet env d w))) = currentSTLFile (app w)
  /\ currentHeartbeatData (app (snd (visualizeBracelet env d w)))
     = currentHeartbeatData (app w)
  /\ (single_mesh (app w) -> single_mesh (app (snd (visualizeBracelet env d w)))).
Proof.
  unfold visualizeBracelet, single_mesh. js_unfold.
  destruct d as [data |]; simpl; [| auto].
  destruct (braceletMesh (app w)) as [old |] eqn:Hold; simpl;
    destruct (vertices data) as [vs |]; simpl;
    try destruct (faces data) as [fs |]; simpl;
    try destruct (sanitizeVertices vs) as [vs' out]; simpl;
    try destruct (normals data); simpl;
    (split; [reflexivity |]); (split; [reflexivity |]); (split; [reflexivity |]);
    intros [Hs | (m & Hm & Hs)]; rewrite ?Hs, ?Hold in *; simpl;
    try (injection Hm as <-); try discriminate;
    rewrite ?filter_out_single; rewrite ?filter_nil; simpl; eauto.
Qed.

End VisualizeMore.

Section GenerateMore.

Variable env : Env.

Ltac finish_outcome :=
  eexists; split; [reflexivity |]; simpl;
  do 4 (split; [reflexivity || (simpl; congruence) |]);
  (split; [solve [auto] |]);
  try solve [left; repeat split; apply last_snoc];
  right; repeat (split; [reflexivity || (simpl; congruence) |]);
  eexists; apply last_snoc.

Lemma generateBracelet_outcome w :
  exists w',
    generateBracelet env w = (Normal tt, w')
    /\ generateBtn_disabled (dom w') = false
    /\ generateBtn_textContent (dom w') = "🚀 Generate 3D Bracelet"
    /\ loading_display (dom w') = "none"
    /\ form (dom w') = form (dom w)
    /\ (single_mesh (app w) -> single_mesh (app w'))
    /\ ((infoPanel_display (dom w') = "block"
         /\ downloadSection_display (dom w') = "block"
         /\ last (events w')
            = Some (Console Log "✅ Bracelet generation completed successfully!" []))
        \/ (infoPanel_display (dom w') = "none"
            /\ downloadSection_display (dom w') = "none"
            /\ currentSTLFile (app w') = currentSTLFile (app w)
            /\ exists text,
                 last (events w')
                 = Some (Alert ("Error generating bracelet: " +:+ text)))).
Proof.
  unfold generateBracelet, try_catch_finally, generateBracelet_body,
    generateHeartbeatData, generate3DBracelet.
  js_unfold. simpl.
  destruct (heartbeat_api env _) as [e | st e | st r]; simpl.
  1, 2: finish_outcome.
  destruct (hb_success r); simpl.
  2: finish_outcome.
  destruct (hb_heartbeat_data r) as [samples |]; simpl.
  2: finish_outcome.
  destruct (bracelet_api env _) as [e | st2 e | st2 r2]; simpl.
  1, 2: finish_outcome.
  destruct (br_success r2); simpl.
  2: finish_outcome.
  match goal with
  | |- context [visualizeBracelet env ?d ?W] =>
      destruct (visualizeBracelet_keeps env d W) as (Hdom & Hstl & Hhb & Hsm);
      destruct (visualizeBracelet env d W) as [[md | e] w3]
  end; simpl in Hdom, Hstl, Hhb, Hsm; simpl.
  2: { rewrite Hdom. finish_outcome. }
  destruct (vertices md); simpl; [destruct (faces md); simpl |];
    rewrite Hdom; finish_outcome.
Qed.


(** X5: [generateBracelet] never lets an exception escape, and whatever
    happened it ends with the button enabled and labelled again and the
    loading indicator hidden; it does not touch the inputs. *)
Theorem generateBracelet_always_restores w :
  exists w',
    generateBracelet env w = (Normal tt, w')
    /\ generateBtn_disabled (dom w') = false
    /\ generateBtn_textContent (dom w') = "🚀 Generate 3D Bracelet"
    /\ loading_display (dom w') = "none"
    /\ form (dom w') = form (dom w).
Proof.
  destruct (generateBracelet_outcome w)
    as (w' & Hrun & Hdis & Htext & Hload & Hform & _).
  exists w'. auto.
Qed.

(** X6: a run ends in one of two ways.  Either its last action is the
    log of the completion, with the info panel and the download section
    shown; or its last action is the alert of an error, with both hidden
    and the stored STL file as it was before. *)
Theorem generateBracelet_completes_or_alerts w :
  let w' := snd (generateBracelet env w) in
  (infoPanel_display (dom w') = "block"
   /\ downloadSection_display (dom w') = "block"
   /\ last (events w')
      = Some (Console Log "✅ Bracelet generation completed successfully!" []))
  \/ (infoPanel_display (dom w') = "none"
      /\ downloadSection_display (dom w') = "none"
      /\ currentSTLFile (app w') = currentSTLFile (app w)
      /\ exists text,
           last (events w') = Some (Alert ("Error generating bracelet: " +:+ text))).
Proof.
  destruct (generateBracelet_outcome w) as (w' & Hrun & _ & _ & _ & _ & _ & H).
  rewrite Hrun. exact H.
Qed.

Lemma generateBracelet_single_mesh w :
  single_mesh (app w) -> single_mesh (app (snd (generateBracelet env w))).
Proof.
  destruct (generateBracelet_outcome w) as (w' & Hrun & _ & _ & _ & _ & H & _).
  rewrite Hrun. exact H.
Qed.

(** X7: when the mesh request is answered with [success: false], the
    samples of the first answer have already been stored in
    [currentHeartbeatData]; nothing else of the application state has
    changed, and the alert shows the error of the second envelope (the
    fixed text when it has none). *)
Theorem generateBracelet_mesh_failure w st r samples st2 r2 :
  heartbeat_api env (heartbeatParameters env (form (dom w))) = Json st r ->
  hb_success r = true ->
  hb_heartbeat_data r = Some samples ->
  bracelet_api env (braceletParameters env samples (form (dom w))) = Json st2 r2 ->
  br_success r2 = false ->
  exists w',
    generateBracelet env w = (Normal tt, w')
    /\ app w' = with_currentHeartbeatData (Some samples) (app w)
    /\ last (events w')
       = Some (Alert ("Error generating bracelet: "
                      +:+ JS.or_else (br_error r2) "Failed to generate 3D bracelet"))
    /\ infoPanel_display (dom w') = "none"
    /\ downloadSection_display (dom w') = "none".
Proof.
  intros Hapi Hs Hd Hapi2 Hs2.
  unfold generateBracelet, try_catch_finally, generateBracelet_body,
    generateHeartbeatData, generate3DBracelet.
  js_unfold. simpl. rewrite Hapi. simpl. rewrite Hs, Hd. simpl.
  rewrite Hapi2. simpl. rewrite Hs2. simpl.
  eexists. split; [reflexivity |]. simpl.
  split; [reflexivity |]. split; [apply last_snoc |]. split; reflexivity.
Qed.

(** X8: when the first [fetch] rejects, or its body is not JSON, the
    run makes no further request, leaves the application state as it was
    and alerts the message of the thrown error. *)
Theorem generateBracelet_transport_failure w e :
  heartbeat_api env (heartbeatParameters env (form (dom w))) = NetworkError e
  \/ (exists st,
        heartbeat_api env (heartbeatParameters env (form (dom w))) = NotJson st e) ->
  exists w' new,
    generateBracelet env w = (Normal tt, w')
    /\ app w' = app w
    /\ events w' = events w ++ new
    /\ fetches new
       = [Fetch "/generate_heartbeat"
                (HeartbeatBody (heartbeatParameters env (form (dom w))))]
    /\ last new = Some (Alert ("Error generating bracelet: " +:+ message e)).
Proof.
  intros [Hapi | (st & Hapi)];
    unfold generateBracelet, try_catch_finally, generateBracelet_body,
      generateHeartbeatData;
    js_unfold; simpl; rewrite Hapi; simpl;
    repeat rewrite <- app_assoc; simpl;
    eexists _, _; (split; [reflexivity |]); simpl;
    (split; [reflexivity |]); (split; [reflexivity |]); split; reflexivity.
Qed.

(** X9: an answer with [success: true] but without [heartbeat_data].
    The assignment before the length is read has already overwritten
    [currentHeartbeatData] with [undefined]; reading the length throws,
    so there is no mesh request and the alert shows the engine's
    message. *)
Theorem generateBracelet_missing_samples w st r :
  heartbeat_api env (heartbeatParameters env (form (dom w))) = Json st r ->
  hb_success r = true ->
  hb_heartbeat_data r = None ->
  exists w' new,
    generateBracelet env w = (Normal tt, w')
    /\ app w' = with_currentHeartbeatData None (app w)
    /\ events w' = events w ++ new
    /\ fetches new
       = [Fetch "/generate_heartbeat"
                (HeartbeatBody (heartbeatParameters env (form (dom w))))]
    /\ last new
       = Some (Alert ("Error generating bracelet: "
                      +:+ typeErrorMessage env "length")).
Proof.
  intros Hapi Hs Hd.
  unfold generateBracelet, try_catch_finally, generateBracelet_body,
    generateHeartbeatData.
  js_unfold. simpl. rewrite Hapi. simpl. rewrite Hs, Hd. simpl.
  repeat rewrite <- app_assoc. simpl.
  eexists _, _. split; [reflexivity |]. simpl.
  split; [reflexivity |]. split; [reflexivity |]. split; reflexivity.
Qed.

End GenerateMore.

Section VisualizeEdges.

Variable env : Env.

(** The scene after [scene.remove(this.braceletMesh)]. *)
Lemma incomplete_model_run data w :
  vertices data = None \/ faces data = None ->
  exists w',
    visualizeBracelet env (Some data) w = (Normal data, w')
    /\ dom w' = dom w
    /\ app w'
       = match braceletMesh (app w) with
         | Some m =>
             with_scene (filter (fun o => mesh_id o ≠ mesh_id m) (scene (app w)))
                        (app w)
         | None => app w
         end
    /\ next_id w' = next_id w
    /\ exists new,
         events w' = events w ++ new
         /\ fetches new = []
         /\ last new
            = Some (Console Error "❌ Invalid bracelet data received:"
                            [ArgModelData data]).
Proof.
  intros H. unfold visualizeBracelet. js_unfold. simpl.
  assert (Hm : match vertices data, faces data with
               | Some _, Some _ => False
               | _, _ => True
               end).
  { destruct H as [-> | ->]; [exact I |]. destruct (vertices data); exact I. }
  destruct (braceletMesh (app w)) eqn:Hb; simpl;
    destruct (vertices data), (faces data); try contradiction; simpl;
    (eexists; split; [reflexivity |]); simpl;
    (split; [reflexivity |]); (split; [destruct (app w); reflexivity |]);
    (split; [reflexivity |]);
    repeat rewrite <- app_assoc; simpl;
    (eexists; split; [reflexivity |]); split; reflexivity.
Qed.

(** X2: a model without vertices or without faces.  The method logs the
    model as an error and returns: no mesh is created, but the mesh on
    display has already been removed from the scene, while
    [this.braceletMesh] still refers to it. *)
Theorem visualizeBracelet_incomplete_model data w :
  vertices data = None \/ faces data = None ->
  exists w',
    visualizeBracelet env (Some data) w = (Normal data, w')
    /\ braceletMesh (app w') = braceletMesh (app w)
    /\ (forall m, braceletMesh (app w) = Some m ->
        scene (app w')
        = filter (fun o => mesh_id o ≠ mesh_id m) (scene (app w)))
    /\ (braceletMesh (app w) = None -> scene (app w') = scene (app w))
    /\ next_id w' = next_id w
    /\ last (events w')
       = Some (Console Error "❌ Invalid bracelet data received:"
                       [ArgModelData data]).
Proof.
  intros H.
  destruct (incomplete_model_run data w H)
    as (w' & Hrun & _ & Happ & Hid & new & Hev & _ & Hlast).
  exists w'. split; [exact Hrun |].
  rewrite Happ, Hev.
  split; [destruct (braceletMesh (app w)) eqn:Hb; simpl; congruence |].
  split; [intros m Hm; rewrite Hm; reflexivity |].
  split; [intros Hm; rewrite Hm; reflexivity |].
  split; [exact Hid |].
  destruct new as [| x new]; [discriminate |].
  rewrite last_app_cons. exact Hlast.
Qed.

(** X3: a complete model replaces the mesh on display.  When the scene
    holds at most the current mesh, it holds exactly the new mesh
    afterwards; the new mesh is a new object, it is the current mesh, the
    camera is centred on it, and its material uses vertex colours exactly
    when the model has colours. *)
Theorem visualizeBracelet_replaces_mesh data vs fs w :
  vertices data = Some vs -> faces data = Some fs ->
  single_mesh (app w) ->
  exists w' mesh,
    visualizeBracelet env (Some data) w
    = (Normal (mkModelData (Some (fst (sanitizeVertices vs))) (Some fs)
                           (normals data) (colors data)), w')
    /\ braceletMesh (app w') = Some mesh
    /\ scene (app w') = [mesh]
    /\ mesh_id mesh = next_id w
    /\ next_id w' = S (next_id w)
    /\ cameraTarget (app w') = Some (next_id w)
    /\ vertexColors (material mesh) = bool_decide (is_Some (colors data)).
Proof.
  intros Hv Hf Hsingle. unfold visualizeBracelet. rewrite Hv, Hf.
  destruct (sanitizeVertices vs) as [vs' out]. js_unfold. simpl.
  destruct (braceletMesh (app w)) as [old |] eqn:Hold; simpl;
    destruct (normals data); simpl;
    (eexists _, _; split; [reflexivity |]); simpl;
    (split; [reflexivity |]);
    (split; [destruct Hsingle as [Hs | (m & Hm & Hs)]; rewrite Hs;
             try (rewrite Hold in Hm; try discriminate; injection Hm as <-);
             rewrite ?filter_out_single, ?filter_nil; reflexivity |]);
    (split; [reflexivity |]); (split; [reflexivity |]); (split; [reflexivity |]);
    destruct (colors data); reflexivity.
Qed.

End VisualizeEdges.

Section GenerateEdges.

Variable env : Env.

(** X10: a successful mesh answer whose model lacks vertices or faces.
    The run ends with the alert of the engine's message for reading
    [length]; the mesh that was on display is gone from the scene but is
    still the current mesh, and the stored STL file is the old one. *)
Theorem generateBracelet_incomplete_model w st r samples st2 r2 data :
  heartbeat_api env (heartbeatParameters env (form (dom w))) = Json st r ->
  hb_success r = true ->
  hb_heartbeat_data r = Some samples ->
  bracelet_api env (braceletParameters env samples (form (dom w))) = Json st2 r2 ->
  br_success r2 = true ->
  br_model_data r2 = Some data ->
  vertices data = None \/ faces data = None ->
  exists w',
    generateBracelet env w = (Normal tt, w')
    /\ braceletMesh (app w') = braceletMesh (app w)
    /\ (forall m, braceletMesh (app w) = Some m ->
        scene (app w')
        = filter (fun o => mesh_id o ≠ mesh_id m) (scene (app w)))
    /\ currentSTLFile (app w') = currentSTLFile (app w)
    /\ infoPanel_display (dom w') = "none"
    /\ downloadSection_display (dom w') = "none"
    /\ last (events w')
       = Some (Alert ("Error generating bracelet: "
                      +:+ typeErrorMessage env "length")).
Proof.
  intros Hapi Hs Hd Hapi2 Hs2 Hmodel Hmiss.
  unfold generateBracelet, try_catch_finally, generateBracelet_body,
    generateHeartbeatData, generate3DBracelet.
  js_unfold. simpl. rewrite Hapi. simpl. rewrite Hs, Hd. simpl.
  rewrite Hapi2. simpl. rewrite Hs2, Hmodel. simpl.
  match goal with
  | |- context [visualizeBracelet env (Some data) ?W] =>
      destruct (incomplete_model_run env data W Hmiss)
        as (w3 & Hrun & Hdom & Happ & _ & _)
  end.
  rewrite Hrun. simpl in Hdom, Happ. simpl.
  assert (Hmesh : braceletMesh (app w3) = braceletMesh (app w)).
  { rewrite Happ. destruct (braceletMesh (app w)) eqn:Hb; simpl; congruence. }
  assert (Hstl : currentSTLFile (app w3) = currentSTLFile (app w)).
  { rewrite Happ. destruct (braceletMesh (app w)); reflexivity. }
  assert (Hscene : forall m, braceletMesh (app w) = Some m ->
            scene (app w3)
            = filter (fun o => mesh_id o ≠ mesh_id m) (scene (app w))).
  { intros m Hm. rewrite Happ, Hm. reflexivity. }
  destruct (vertices data) as [vs |]; simpl;
    [destruct (faces data) as [fs |]; simpl;
       [destruct Hmiss; discriminate |] |];
    (eexists; split; [reflexivity |]); simpl; rewrite ?Hdom; simpl;
    (split; [exact Hmesh |]); (split; [exact Hscene |]);
    (split; [exact Hstl |]); (split; [reflexivity |]);
    (split; [reflexivity |]); apply last_snoc.
Qed.

(** X11: a complete generation followed by a download.  The run stores
    the samples and the file, shows the mesh built from the repaired
    vertices, writes a third of the two array lengths into the info
    panel and shows both panels; [downloadSTL] then opens the download
    of exactly the file the server named. *)
Theorem generateBracelet_then_download w st r samples st2 r2 data vs fs file :
  heartbeat_api env (heartbeatParameters env (form (dom w))) = Json st r ->
  hb_success r = true ->
  hb_heartbeat_data r = Some samples ->
  bracelet_api env (braceletParameters env samples (form (dom w))) = Json st2 r2 ->
  br_success r2 = true ->
  br_model_data r2 = Some data ->
  vertices data = Some vs -> faces data = Some fs ->
  br_stl_file r2 = Some file -> file <> "" ->
  exists w' mesh,
    generateBracelet env w = (Normal tt, w')
    /\ currentHeartbeatData (app w') = Some samples
    /\ currentSTLFile (app w') = Some file
    /\ braceletMesh (app w') = Some mesh
    /\ position (geometry mesh)
       = mkBufferAttribute (Float32Array (fst (sanitizeVertices vs))) 3
    /\ vertex_count (dom w') = Some (third_of_length vs)
    /\ face_count (dom w') = Some (third_of_length fs)
    /\ infoPanel_display (dom w') = "block"
    /\ downloadSection_display (dom w') = "block"
    /\ events (snd (downloadSTL w'))
       = events w' ++ [WindowOpen ("/download_stl/" +:+ file) "_blank"].
Proof.
  intros Hapi Hs Hd Hapi2 Hs2 Hmodel Hv Hf Hfile Hne.
  unfold generateBracelet, try_catch_finally, generateBracelet_body,
    generateHeartbeatData, generate3DBracelet.
  js_unfold. simpl. rewrite Hapi. simpl. rewrite Hs, Hd. simpl.
  rewrite Hapi2. simpl. rewrite Hs2, Hmodel. simpl.
  match goal with
  | |- context [visualizeBracelet env (Some data) ?W] =>
      destruct (visualizeBracelet_valid env data vs fs W Hv Hf)
        as (w3 & Hrun & Hmesh & _);
      destruct (visualizeBracelet_keeps env (Some data) W)
        as (Hdom & _ & Hhb & _)
  end.
  rewrite Hrun in Hdom, Hhb |- *. simpl in Hdom, Hhb. simpl.
  eexists _, _. split; [reflexivity |]. simpl.
  split; [exact Hhb |]. split; [exact Hfile |]. split; [exact Hmesh |].
  split; [reflexivity |].
  split; [unfold third_of_length; rewrite sanitizeVertices_length; reflexivity |].
  split; [reflexivity |]. split; [reflexivity |]. split; [reflexivity |].
  unfold downloadSTL. js_unfold. simpl. rewrite Hfile. simpl.
  destruct (String.eqb_spec file ""); [contradiction | reflexivity].
Qed.

End GenerateEdges.

(** X4: however many generations run, and whatever the server answers in
    each, the scene never holds more than one bracelet mesh, provided it
    did not before. *)
Theorem generations_single_mesh (servers : list Env) : forall w,
  single_mesh (app w) ->
  single_mesh (app (generations servers w))
  /\ length (scene (app (generations servers w))) <= 1.
Proof.
  assert (Hlen : forall a, single_mesh a -> length (scene a) <= 1).
  { intros a [-> | (m & _ & ->)]; simpl; lia. }
  unfold generations.
  induction servers as [| env servers IH]; intros w Hw; simpl.
  - split; [exact Hw | exact (Hlen _ Hw)].
  - apply IH, generateBracelet_single_mesh, Hw.
Qed.

(** ** The parameter displays *)

Section DisplayFacts.

Import Displays.

Implicit Types (doc : gmap string Element) (ps : list string) (p q id : string).

Lemma append_length (a b : string) :
  String.length (a +:+ b) = String.length a + String.length b.
Proof. induction a as [| c a IH]; simpl; [| rewrite IH]; reflexivity. Qed.

Lemma display_id_inj p q : display_id p = display_id q -> p = q.
Proof.
  unfold display_id. revert q.
  induction p as [| c p IH]; intros [| d q] H; simpl in H.
  - reflexivity.
  - apply (f_equal String.length) in H. simpl in H.
    rewrite append_length in H. simpl in H. lia.
  - apply (f_equal String.length) in H. simpl in H.
    rewrite append_length in H. simpl in H. lia.
  - injection H as -> H. f_equal. apply IH, H.
Qed.

(** No id of a display is the id of a parameter. *)
Lemma display_not_parameter p q :
  p ∈ parameters -> q ∈ parameters -> display_id p <> q.
Proof.
  intros Hp Hq.
  assert (H : forallb (fun a => forallb (fun b => negb (String.eqb (display_id a) b))
                                 parameters) parameters = true) by reflexivity.
  rewrite forallb_forall in H.
  apply list_elem_of_In in Hp, Hq.
  specialize (H p Hp). rewrite forallb_forall in H. specialize (H q Hq).
  intros E. rewrite E, String.eqb_refl in H. discriminate.
Qed.

Lemma updateDisplay_other doc p id :
  id <> display_id p -> updateDisplay doc p !! id = doc !! id.
Proof.
  intros Hne. unfold updateDisplay.
  destruct (doc !! p); [| reflexivity].
  destruct (doc !! display_id p); [| reflexivity].
  apply lookup_insert_ne. congruence.
Qed.

Lemma update_loop_other ps : forall doc id,
  (forall p, p ∈ ps -> id <> display_id p) ->
  foldl updateDisplay doc ps !! id = doc !! id.
Proof.
  induction ps as [| q ps IH]; intros doc id H; simpl; [reflexivity |].
  rewrite IH.
  - apply updateDisplay_other, H. left.
  - intros p Hp. apply H. right. exact Hp.
Qed.

(** What the loop leaves in the display of [p], when the ids of the
    displays of [ps] are not ids of its sliders. *)
Lemma update_loop_display ps : forall doc p slider display,
  (forall a b, a ∈ ps -> b ∈ ps -> display_id a <> b) ->
  doc !! p = Some slider -> doc !! display_id p = Some display ->
  foldl updateDisplay doc ps !! display_id p
  = Some (if decide (p ∈ ps)
          then mkElement (value display) (value slider)
          else display).
Proof.
  induction ps as [| q ps IH]; intros doc p slider display Hsep Hs Hd;
    cbn [foldl].
  - case_decide as Hin; [inversion Hin | exact Hd].
  - assert (Hsep' : forall a b, a ∈ ps -> b ∈ ps -> display_id a <> b).
    { intros a b Ha Hb. apply Hsep; right; assumption. }
    destruct (decide (q = p)) as [-> | Hqp].
    + assert (Hstep : updateDisplay doc p !! display_id p
                      = Some (mkElement (value display) (value slider))).
      { unfold updateDisplay. rewrite Hs, Hd. apply lookup_insert_eq. }
      assert (Hslider : updateDisplay doc p !! p = Some slider).
      { rewrite updateDisplay_other; [exact Hs |].
        intros E. apply (Hsep p p); [left | left | symmetry; exact E]. }
      rewrite (IH _ p slider _ Hsep' Hslider Hstep). cbn [value].
      f_equal. repeat case_decide; try reflexivity;
        exfalso; match goal with H : ¬ _ ∈ _ :: _ |- _ => apply H; left end.
    + assert (Hstep : updateDisplay doc q !! display_id p = Some display).
      { rewrite updateDisplay_other; [exact Hd |].
        intros E. apply Hqp. symmetry. apply display_id_inj, E. }
      destruct (decide (p ∈ ps)) as [Hin | Hout].
      * assert (Hslider : updateDisplay doc q !! p = Some slider).
        { rewrite updateDisplay_other; [exact Hs |].
          intros E. apply (Hsep q p); [left | right; exact Hin | symmetry; exact E]. }
        rewrite (IH _ p slider display Hsep' Hslider Hstep).
        f_equal. repeat case_decide; try reflexivity; try contradiction;
          exfalso;
          match goal with H : ¬ _ ∈ _ :: _ |- _ => apply H; right; exact Hin end.
      * rewrite update_loop_other.
        -- rewrite Hstep. f_equal. case_decide as Hc; [| reflexivity].
           apply elem_of_cons in Hc. destruct Hc as [E | E];
             [congruence | contradiction].
        -- intros a Ha E. apply Hout. apply display_id_inj in E. subst. exact Ha.
Qed.

(** A display whose slider is missing, or a slider whose display is
    missing, is skipped. *)
Lemma update_loop_skipped ps : forall doc p,
  (forall q, q ∈ ps -> display_id q <> p) ->
  doc !! p = None \/ doc !! display_id p = None ->
  foldl updateDisplay doc ps !! display_id p = doc !! display_id p.
Proof.
  induction ps as [| q ps IH]; intros doc p Hsep Hmiss; cbn [foldl];
    [reflexivity |].
  assert (Hslider : updateDisplay doc q !! p = doc !! p).
  { apply updateDisplay_other. intros E. apply (Hsep q); [left | congruence]. }
  assert (Hdisplay : updateDisplay doc q !! display_id p = doc !! display_id p).
  { destruct (decide (q = p)) as [-> | Hqp].
    - assert (Hsame : updateDisplay doc p = doc).
      { unfold updateDisplay.
        destruct Hmiss as [H | H]; rewrite H;
          [reflexivity | destruct (doc !! p); reflexivity]. }
      rewrite Hsame. reflexivity.
    - apply updateDisplay_other. intros E. apply Hqp. symmetry.
      apply display_id_inj, E. }
  rewrite IH.
  - exact Hdisplay.
  - intros a Ha. apply Hsep. right. exact Ha.
  - rewrite Hslider, Hdisplay. exact Hmiss.
Qed.

Lemma parameter_kept doc p :
  p ∈ parameters -> updateParameterDisplays doc !! p = doc !! p.
Proof.
  intros Hp. apply update_loop_other.
  intros q Hq E. apply (display_not_parameter q p Hq Hp). symmetry. exact E.
Qed.

Lemma display_shown doc p slider display :
  p ∈ parameters ->
  doc !! p = Some slider -> doc !! display_id p = Some display ->
  updateParameterDisplays doc !! display_id p
  = Some (mkElement (value display) (value slider)).
Proof.
  intros Hp Hs Hd. unfold updateParameterDisplays.
  rewrite (update_loop_display parameters doc p slider display
             display_not_parameter Hs Hd).
  rewrite decide_True by exact Hp. reflexivity.
Qed.

Lemma display_skipped doc p :
  p ∈ parameters ->
  doc !! p = None \/ doc !! display_id p = None ->
  updateParameterDisplays doc !! display_id p = doc !! display_id p.
Proof.
  intros Hp Hmiss. apply update_loop_skipped; [| exact Hmiss].
  intros q Hq. apply display_not_parameter; assumption.
Qed.

Lemma other_kept doc id :
  id ∉ display_id <$> parameters ->
  updateParameterDisplays doc !! id = doc !! id.
Proof.
  intros Hid. apply update_loop_other. intros p Hp E. apply Hid.
  apply list_elem_of_fmap. exists p. split; assumption.
Qed.

(** What the page holds at any id after the call, by cases. *)
Lemma display_cases doc id :
  (exists p slider display,
      p ∈ parameters /\ id = display_id p
      /\ doc !! p = Some slider /\ doc !! id = Some display
      /\ updateParameterDisplays doc !! id
         = Some (mkElement (value display) (value slider)))
  \/ updateParameterDisplays doc !! id = doc !! id.
Proof.
  destruct (decide (id ∈ display_id <$> parameters)) as [Hin | Hout].
  - apply list_elem_of_fmap in Hin. destruct Hin as (p & -> & Hp).
    destruct (doc !! p) as [slider |] eqn:Hs.
    + destruct (doc !! display_id p) as [display |] eqn:Hd.
      * left. exists p, slider, display.
        repeat split; try assumption.
        exact (display_shown doc p slider display Hp Hs Hd).
      * right. rewrite <- Hd. apply display_skipped; [exact Hp | right; exact Hd].
    + right. apply display_skipped; [exact Hp | left; exact Hs].
  - right. apply other_kept, Hout.
Qed.

(** X12: for each of the nine parameters whose slider and display both
    exist, the display shows the value of the slider after the call, and
    the slider is untouched. *)
Theorem updateParameterDisplays_shows doc p slider display :
  p ∈ parameters ->
  doc !! p = Some slider -> doc !! display_id p = Some display ->
  updateParameterDisplays doc !! display_id p
  = Some (mkElement (value display) (value slider))
  /\ updateParameterDisplays doc !! p = Some slider.
Proof.
  intros Hp Hs Hd. split.
  - exact (display_shown doc p slider display Hp Hs Hd).
  - rewrite parameter_kept; assumption.
Qed.

(** X13: the call changes nothing else.  An element that is not the
    display of a parameter is as before; a display whose slider is
    missing is as before and a missing display is not created; no
    element appears or disappears; and no [value] changes. *)
Theorem updateParameterDisplays_frame doc :
  (forall id, id ∉ display_id <$> parameters ->
      updateParameterDisplays doc !! id = doc !! id)
  /\ (forall p, p ∈ parameters ->
        doc !! p = None \/ doc !! display_id p = None ->
        updateParameterDisplays doc !! display_id p = doc !! display_id p)
  /\ (forall id, is_Some (updateParameterDisplays doc !! id)
                 <-> is_Some (doc !! id))
  /\ (forall id e e', doc !! id = Some e ->
        updateParameterDisplays doc !! id = Some e' -> value e' = value e).
Proof.
  split; [exact (other_kept doc) |].
  split; [exact (display_skipped doc) |].
  split.
  - intros id.
    destruct (display_cases doc id)
      as [(p & s & d & _ & _ & _ & Hd & ->) | ->]; [| reflexivity].
    rewrite Hd. split; intros _; eexists; reflexivity.
  - intros id e e' He.
    destruct (display_cases doc id)
      as [(p & s & d & _ & _ & _ & Hd & ->) | ->].
    + intros [= <-]. simpl. congruence.
    + congruence.
Qed.

(** X14: calling [updateParameterDisplays] twice gives the same page as
    calling it once. *)
Theorem updateParameterDisplays_idempotent doc :
  updateParameterDisplays (updateParameterDisplays doc)
  = updateParameterDisplays doc.
Proof.
  apply map_eq. intros id.
  set (doc1 := updateParameterDisplays doc).
  destruct (display_cases doc1 id)
    as [(p & s & d & Hp & -> & Hs & Hd & ->) | ->]; [| reflexivity].
  unfold doc1 in Hs, Hd. rewrite (parameter_kept doc p Hp) in Hs.
  destruct (doc !! display_id p) as [d0 |] eqn:Hd0.
  - rewrite (display_shown doc p s d0 Hp Hs Hd0) in Hd.
    injection Hd as <-. simpl. unfold doc1.
    rewrite (display_shown doc p s d0 Hp Hs Hd0). reflexivity.
  - rewrite (display_skipped doc p Hp (or_intror Hd0)), Hd0 in Hd.
    discriminate.
Qed.

End DisplayFacts.

(** ** More on the preview *)

Section WaveformMore.

Import Preview.
Local Open Scope R_scope.

Lemma frac_part_succ x : frac_part (x + 1) = frac_part x.
Proof.
  unfold frac_part.
  assert (H : Int_part (x + 1) = (Int_part x + 1)%Z).
  { symmetry. apply Int_part_spec. rewrite plus_IZR.
    destruct (base_Int_part x) as [H1 H2]. simpl. lra. }
  rewrite H, plus_IZR. simpl. ring.
Qed.

Lemma beatPhaseAt_period (heartRate : Z) t :
  0 <= t -> (0 < heartRate)%Z ->
  beatPhaseAt heartRate (t + 60 / IZR heartRate) = beatPhaseAt heartRate t.
Proof.
  intros Ht Hh.
  assert (Hpos : 0 < IZR heartRate) by (apply IZR_lt in Hh; exact Hh).
  assert (Hstep : 0 <= 60 / IZR heartRate).
  { apply Rlt_le, Rdiv_lt_0_compat; lra. }
  rewrite !beatPhaseAt_frac_part by (lra || lia).
  rewrite <- (frac_part_succ (t * IZR heartRate / 60)).
  f_equal. field. lra.
Qed.

(** X15: the waveform is periodic: for a positive heart rate, the
    amplitude at [t + 60 / heart_rate] is the amplitude at [t], before
    the noise and, for the same random number, after it. *)
Theorem preview_periodic (heartRate : Z) (activityLevel t : R) :
  0 <= t -> (0 < heartRate)%Z ->
  amplitudeBeforeNoise heartRate activityLevel (t + 60 / IZR heartRate)
  = amplitudeBeforeNoise heartRate activityLevel t
  /\ forall stressLevel random,
       amplitudeAt heartRate stressLevel activityLevel
                   (t + 60 / IZR heartRate) random
       = amplitudeAt heartRate stressLevel activityLevel t random.
Proof.
  intros Ht Hh.
  assert (H : amplitudeBeforeNoise heartRate activityLevel (t + 60 / IZR heartRate)
              = amplitudeBeforeNoise heartRate activityLevel t).
  { unfold amplitudeBeforeNoise.
    rewrite (beatPhaseAt_period heartRate t Ht Hh). reflexivity. }
  split; [exact H |]. intros s r. unfold amplitudeAt. rewrite H. reflexivity.
Qed.

Lemma beatPhaseAt_nonpositive (heartRate : Z) t :
  0 <= t -> (heartRate <= 0)%Z -> -1 < beatPhaseAt heartRate t <= 0.
Proof.
  intros Ht Hh. unfold beatPhaseAt.
  assert (Hle : IZR heartRate <= 0) by (apply IZR_le in Hh; exact Hh).
  assert (Hx : t * (IZR heartRate / 60) <= 0) by nra.
  destruct (Rle_lt_or_eq_dec _ _ Hx) as [Hneg | Hzero].
  - apply rem_1_negative, Hneg.
  - rewrite Hzero, rem_1_frac_part by lra.
    rewrite frac_part_small; lra.
Qed.

(** X16: a heart rate that is not positive.  [%] keeps the sign of the
    dividend, so the beat phase lies in (-1, 0]; it is below 0.1, so
    every sample is computed by the QRS branch; and at heart rate 0 the
    line before the noise is flat. *)
Theorem preview_nonpositive_heart_rate (heartRate : Z) (activityLevel t : R) :
  0 <= t -> (heartRate <= 0)%Z ->
  -1 < beatPhaseAt heartRate t <= 0
  /\ amplitudeBeforeNoise heartRate activityLevel t
     = sin (beatPhaseAt heartRate t / 0.1 * PI) * (0.8 + activityLevel * 0.4)
  /\ (heartRate = 0%Z -> amplitudeBeforeNoise heartRate activityLevel t = 0).
Proof.
  intros Ht Hh.
  pose proof (beatPhaseAt_nonpositive heartRate t Ht Hh) as Hbp.
  assert (Hq : amplitudeBeforeNoise heartRate activityLevel t
               = sin (beatPhaseAt heartRate t / 0.1 * PI)
                 * (0.8 + activityLevel * 0.4)).
  { unfold amplitudeBeforeNoise.
    assert (E : Rltb (beatPhaseAt heartRate t) 0.1 = true)
      by (apply Rltb_true; lra).
    rewrite E. reflexivity. }
  split; [exact Hbp |]. split; [exact Hq |].
  intros ->. rewrite Hq.
  assert (E : beatPhaseAt 0 t = 0).
  { unfold beatPhaseAt. replace (t * (0 / 60)) with 0 by lra.
    rewrite rem_1_frac_part by lra. apply frac_part_small. lra. }
  rewrite E. replace (0 / 0.1 * PI) with 0 by lra. rewrite sin_0. ring.
Qed.

(** X17: for a sample time and a heart rate that are not negative, a
    higher activity level never lowers the amplitude before the noise. *)
Theorem preview_monotone_in_activity (heartRate : Z) (a1 a2 t : R) :
  0 <= t -> (0 <= heartRate)%Z -> a1 <= a2 ->
  amplitudeBeforeNoise heartRate a1 t <= amplitudeBeforeNoise heartRate a2 t.
Proof.
  intros Ht Hh Ha. unfold amplitudeBeforeNoise.
  rewrite (beatPhaseAt_frac_part heartRate t Ht Hh).
  set (bp := frac_part (t * IZR heartRate / 60)).
  pose proof (frac_part_range (t * IZR heartRate / 60)) as Hbp. fold bp in Hbp.
  pose proof PI_RGT_0 as Hpi.
  destruct (Rltb bp 0.1) eqn:E1; [| lra].
  apply Rltb_true in E1.
  assert (Hs : 0 <= sin (bp / 0.1 * PI)) by (apply sin_ge_0; nra).
  nra.
Qed.

(** X18: the preview shows three seconds: the sample times start at 0,
    increase with the column and stay below 3. *)
Theorem sampleTime_window (width i : nat) :
  (i < width)%nat ->
  0 <= sampleTime width i < timeSpan
  /\ forall j : nat, (i < j)%nat -> sampleTime width i < sampleTime width j.
Proof.
  intros Hi. unfold sampleTime, timeSpan.
  assert (Hw : 0 < INR width) by (apply lt_0_INR; lia).
  assert (Hw' : 0 < / INR width) by (apply Rinv_0_lt_compat, Hw).
  pose proof (pos_INR i) as H0.
  assert (Hlt : INR i < INR width) by (apply lt_INR, Hi).
  unfold Rdiv. split; [split |].
  - nra.
  - assert (INR i * / INR width < 1).
    { apply (Rmult_lt_reg_r (INR width)); [exact Hw |].
      rewrite Rmult_assoc, Rinv_l by lra. lra. }
    lra.
  - intros j Hj. apply lt_INR in Hj. nra.
Qed.

End WaveformMore.

Section PathMore.

Import Preview.
Local Open Scope R_scope.

Variables width height : nat.
Variable heartRate : Z.
Variables stressLevel activityLevel : R.
Variable random : nat -> R.

(** X19: the shape of the path.  After the four calls that prepare it,
    a run draws one point per column of the canvas, a [moveTo] for
    column 0 and a [lineTo] for every other column, then strokes; it
    calls [Math.random()] once per column. *)
Theorem preview_path_shape (st : Run) :
  exists points,
    ops (generateHeartbeatPreview width height heartRate stressLevel
           activityLevel random st)
    = ops st
      ++ [ClearRect 0 0 (INR width) (INR height); StrokeStyle "#ffd700";
          LineWidth 2; BeginPath]
      ++ points ++ [Stroke]
    /\ length points = width
    /\ (forall i : nat, (i < width)%nat ->
        exists y, points !! i
                  = Some (if (i =? 0)%nat then MoveTo (INR i) y
                          else LineTo (INR i) y))
    /\ calls (generateHeartbeatPreview width height heartRate stressLevel
                activityLevel random st)
       = (calls st + width)%nat.
Proof.
  eexists. split; [apply preview_draws_amplitudes |].
  unfold amplitudes. rewrite zip_with_map_same.
  split; [rewrite length_map, length_seq; reflexivity |].
  split; [| apply preview_calls].
  intros i Hi. rewrite list_lookup_fmap, lookup_seq_lt by exact Hi. simpl.
  unfold point. eexists. reflexivity.
Qed.

(** X20: for activity and stress levels in [0,1], a heart rate that is
    not negative and random numbers in [0,1), every point of the path
    lies on the canvas. *)
Theorem preview_on_canvas (st : Run) :
  0 <= activityLevel <= 1 -> 0 <= stressLevel <= 1 -> (0 <= heartRate)%Z ->
  (forall n, 0 <= random n < 1) ->
  exists new,
    ops (generateHeartbeatPreview width height heartRate stressLevel
           activityLevel random st)
    = ops st ++ new
    /\ Forall (on_canvas width height) new.
Proof.
  intros Ha Hs Hh Hr.
  eexists. split; [apply preview_draws_amplitudes |].
  repeat (apply Forall_cons; split; [exact I |]).
  apply Forall_app. split; [| repeat constructor].
  unfold amplitudes. rewrite zip_with_map_same.
  apply Forall_fmap, Forall_forall. intros i Hi.
  apply elem_of_seq in Hi. destruct Hi as [_ Hi]. simpl in Hi.
  pose proof (amplitudeAt_range heartRate stressLevel activityLevel
                (sampleTime width i) (random (calls st + i)%nat)
                Ha Hs (sampleTime_nonneg width i) Hh (Hr _)) as Hamp.
  pose proof (pos_INR height) as Hheight.
  pose proof (pos_INR i) as Hx.
  assert (Hlt : INR i < INR width) by (apply lt_INR, Hi).
  unfold point. simpl.
  destruct (i =? 0)%nat; simpl; (split; [lra | nra]).
Qed.

End PathMore.

(** * The further statements at concrete inputs *)

(** A model without faces, shown to an application that has a bracelet
    on display. *)
Lemma visualizeBracelet_incomplete_model_witness :
  exists w',
    visualizeBracelet working_env (Some faceless_model) shown_world
    = (Normal faceless_model, w')
    /\ braceletMesh (app w') = braceletMesh (app shown_world)
    /\ next_id w' = next_id shown_world.
Proof.
  destruct (visualizeBracelet_incomplete_model working_env faceless_model
              shown_world (or_intror eq_refl))
    as (w' & Hrun & Hmesh & _ & _ & Hid & _).
  exists w'. auto.
Defined.

(** [example_model] shown to an application without a bracelet. *)
Lemma visualizeBracelet_replaces_mesh_witness :
  exists w' mesh,
    braceletMesh (app w') = Some mesh
    /\ scene (app w') = [mesh]
    /\ mesh_id mesh = next_id example_world
    /\ vertexColors (material mesh) = true.
Proof.
  destruct (visualizeBracelet_replaces_mesh working_env example_model
              [1%float; nan; infinity] [0%float; 1%float; 2%float]
              example_world eq_refl eq_refl (or_introl eq_refl))
    as (w' & mesh & _ & Hm & Hs & Hid & _ & _ & Hc).
  exists w', mesh. auto.
Defined.

(** Three generations: a complete one, one whose model has no faces, a
    complete one. *)
Lemma generations_single_mesh_witness :
  length (scene (app (generations [working_env; no_faces_env; working_env]
                                  example_world))) <= 1.
Proof.
  exact (proj2 (generations_single_mesh [working_env; no_faces_env; working_env]
                  example_world (or_introl eq_refl))).
Defined.

Lemma generateBracelet_mesh_failure_witness :
  exists w',
    generateBracelet half_working_env example_world = (Normal tt, w')
    /\ app w' = with_currentHeartbeatData (Some [2%float; 3%float])
                                          (app example_world)
    /\ last (events w')
       = Some (Alert "Error generating bracelet: mesh generation failed").
Proof.
  destruct (generateBracelet_mesh_failure half_working_env example_world
              200 _ [2%float; 3%float] 500 _
              eq_refl eq_refl eq_refl eq_refl eq_refl)
    as (w' & Hrun & Happ & Hlast & _).
  exists w'. auto.
Defined.

Lemma generateBracelet_transport_failure_witness :
  exists w' new,
    generateBracelet unreachable_env example_world = (Normal tt, w')
    /\ app w' = app example_world
    /\ last new = Some (Alert "Error generating bracelet: Failed to fetch").
Proof.
  destruct (generateBracelet_transport_failure unreachable_env example_world
              (mkError "Failed to fetch") (or_introl eq_refl))
    as (w' & new & Hrun & Happ & _ & _ & Hlast).
  exists w', new. auto.
Defined.

Lemma generateBracelet_missing_samples_witness :
  exists w',
    generateBracelet no_samples_env shown_world = (Normal tt, w')
    /\ currentHeartbeatData (app shown_world) = Some [0%float; 1%float]
    /\ currentHeartbeatData (app w') = None.
Proof.
  destruct (generateBracelet_missing_samples no_samples_env shown_world
              200 (mkHeartbeatResponse true None None) eq_refl eq_refl eq_refl)
    as (w' & new & Hrun & Happ & _).
  exists w'. split; [exact Hrun |]. split; [vm_compute; reflexivity |].
  rewrite Happ. reflexivity.
Defined.

(** A model without faces arrives while a bracelet is on display. *)
Lemma generateBracelet_incomplete_model_witness :
  exists w',
    generateBracelet no_faces_env shown_world = (Normal tt, w')
    /\ braceletMesh (app w') = braceletMesh (app shown_world)
    /\ currentSTLFile (app w') = Some "bracelet_1.stl"
    /\ last (events w')
       = Some (Alert "Error generating bracelet: Cannot read properties of undefined (reading 'length')").
Proof.
  destruct (generateBracelet_incomplete_model no_faces_env shown_world
              200 (mkHeartbeatResponse true (Some [0%float; 1%float]) None)
              [0%float; 1%float]
              200 (mkBraceletResponse true (Some faceless_model)
                     (Some "bracelet_2.stl") None)
              faceless_model
              eq_refl eq_refl eq_refl eq_refl eq_refl eq_refl
              (or_intror eq_refl))
    as (w' & Hrun & Hmesh & Hscene & Hstl & _ & _ & Hlast).
  exists w'. split; [exact Hrun |]. split; [exact Hmesh |].
  split; [rewrite Hstl; vm_compute; reflexivity | exact Hlast].
Defined.

Lemma generateBracelet_then_download_witness :
  exists w',
    generateBracelet working_env example_world = (Normal tt, w')
    /\ currentSTLFile (app w') = Some "bracelet_1.stl"
    /\ events (snd (downloadSTL w'))
       = events w' ++ [WindowOpen "/download_stl/bracelet_1.stl" "_blank"].
Proof.
  assert (Hne : "bracelet_1.stl" <> "") by discriminate.
  destruct (generateBracelet_then_download working_env example_world
              200 _ [0%float; 1%float] 200 _ example_model
              [1%float; nan; infinity] [0%float; 1%float; 2%float]
              "bracelet_1.stl"
              eq_refl eq_refl eq_refl eq_refl eq_refl eq_refl eq_refl eq_refl
              eq_refl Hne)
    as (w' & mesh & Hrun & _ & Hstl & _ & _ & _ & _ & _ & _ & Hdl).
  exists w'. auto.
Defined.

Section DisplayInstances.

Import Displays.

Lemma updateParameterDisplays_shows_witness :
  updateParameterDisplays example_page !! "heart-rate-value"
  = Some (mkElement "" "72")
  /\ updateParameterDisplays example_page !! "heart-rate"
     = Some (mkElement "72" "").
Proof.
  assert (Hp : "heart-rate" ∈ parameters) by (vm_compute; left).
  exact (updateParameterDisplays_shows example_page "heart-rate"
           (mkElement "72" "") (mkElement "" "60") Hp eq_refl eq_refl).
Defined.

(** The display of the duration is missing and is not created. *)
Lemma updateParameterDisplays_frame_witness :
  updateParameterDisplays example_page !! "duration-value" = None
  /\ updateParameterDisplays example_page !! "emotion" = None.
Proof.
  assert (Hp : "duration" ∈ parameters) by (vm_compute; do 3 right; left).
  destruct (updateParameterDisplays_frame example_page) as (Hother & Hskip & _).
  split.
  - exact (Hskip "duration" Hp (or_intror eq_refl)).
  - apply (Hother "emotion").
    intros H. apply list_elem_of_In in H. vm_compute in H.
    repeat (destruct H as [H | H]; [discriminate |]). exact H.
Defined.

End DisplayInstances.

Section PreviewInstances.

Import Preview.
Local Open Scope R_scope.

(** At 60 beats per minute the period is one second. *)
Lemma preview_periodic_witness :
  amplitudeBeforeNoise 60 0.5 (0.25 + 60 / 60) = amplitudeBeforeNoise 60 0.5 0.25.
Proof.
  assert (Ht : 0 <= 0.25) by lra.
  assert (Hh : (0 < 60)%Z) by lia.
  exact (proj1 (preview_periodic 60 0.5 0.25 Ht Hh)).
Defined.

Lemma preview_nonpositive_heart_rate_witness :
  -1 < beatPhaseAt (-60) 0.05 <= 0
  /\ amplitudeBeforeNoise 0 0.5 0.05 = 0.
Proof.
  assert (Ht : 0 <= 0.05) by lra.
  split.
  - assert (Hh : (-60 <= 0)%Z) by lia.
    exact (proj1 (preview_nonpositive_heart_rate (-60) 0.5 0.05 Ht Hh)).
  - assert (Hh : (0 <= 0)%Z) by lia.
    exact (proj2 (proj2 (preview_nonpositive_heart_rate 0 0.5 0.05 Ht Hh)) eq_refl).
Defined.

Lemma preview_monotone_in_activity_witness :
  amplitudeBeforeNoise 72 0.2 1.5 <= amplitudeBeforeNoise 72 0.7 1.5.
Proof.
  apply preview_monotone_in_activity; try lra. lia.
Defined.

Lemma sampleTime_window_witness :
  0 <= sampleTime 300 5 < timeSpan
  /\ sampleTime 300 5 < sampleTime 300 6.
Proof.
  assert (Hi : (5 < 300)%nat) by lia.
  destruct (sampleTime_window 300 5 Hi) as [H1 H2].
  split; [exact H1 |]. apply H2. lia.
Defined.

Lemma preview_on_canvas_witness :
  exists new,
    ops (generateHeartbeatPreview 300 150 72 0.3 0.5 (fun _ => 0.25) (mkRun 0 []))
    = [] ++ new
    /\ Forall (on_canvas 300 150) new.
Proof.
  apply (preview_on_canvas 300 150 72 0.3 0.5 (fun _ => 0.25) (mkRun 0 []));
    try lra; try lia.
  intros _. lra.
Defined.

End PreviewInstances.
